(** * The AUSF operator charm: reconciliation handler

    A shallow embedding of [src/charm.py] (class [AUSFOperatorCharm]) and of
    the parts of its collaborators the handler relies on: the relation set of
    the model, the NRF requirer, the workload container (files, Pebble plan),
    the host-metadata command [unit-get] and the configuration template.

    The handler is stateful and may raise, so it is written in a small
    state, trace and exception monad: every call the handler makes to a
    collaborator is appended to a trace, in program order. *)

From Stdlib Require Import Ascii String.
From stdpp Require Import gmap strings list fin_maps pretty.

Open Scope string_scope.

(** ** Python values used by the charm *)

Module Py.

(** [bytes] objects are byte strings; a decoded [str] is its sequence of
    Unicode code points.  Text that the charm only passes around (paths,
    status messages, URLs) stays a byte string. *)
Definition bytes : Type := string.
Definition str : Type := list N.

(** Truthiness: [None] and the empty string are false. *)
Definition truthy_string (s : string) : bool :=
  match s with
  | EmptyString => false
  | String _ _ => true
  end.

Definition truthy_option {A : Type} (inner : A → bool) (o : option A) : bool :=
  match o with
  | None => false
  | Some a => inner a
  end.

(** An object without [__bool__] or [__len__] is always true. *)
Definition truthy_object {A : Type} (_ : A) : bool := true.

Definition byte_values (b : bytes) : list N :=
  N_of_ascii <$> list_ascii_of_string b.

Definition is_continuation (b : N) : bool :=
  (128 <=? b)%N && (b <=? 191)%N.

Definition in_range (lo hi b : N) : bool := (lo <=? b)%N && (b <=? hi)%N.

Definition low_bits (k : N) (b : N) : N := N.land b (N.ones k).

(** [bytes.decode()] with the default codec (strict UTF-8): shortest form
    only, no surrogates, nothing above U+10FFFF. *)
Fixpoint utf8_decode (bs : list N) : option str :=
  match bs with
  | [] => Some []
  | b0 :: r0 =>
    if (b0 <? 128)%N then cons b0 <$> utf8_decode r0
    else if in_range 194 223 b0 then
      match r0 with
      | b1 :: r1 =>
        if is_continuation b1
        then cons (N.lor (N.shiftl (low_bits 5 b0) 6) (low_bits 6 b1))
               <$> utf8_decode r1
        else None
      | _ => None
      end
    else if in_range 224 239 b0 then
      match r0 with
      | b1 :: b2 :: r2 =>
        let lo := if (b0 =? 224)%N then 160%N else 128%N in
        let hi := if (b0 =? 237)%N then 159%N else 191%N in
        if in_range lo hi b1 && is_continuation b2
        then cons (N.lor (N.shiftl (low_bits 4 b0) 12)
                     (N.lor (N.shiftl (low_bits 6 b1) 6) (low_bits 6 b2)))
               <$> utf8_decode r2
        else None
      | _ => None
      end
    else if in_range 240 244 b0 then
      match r0 with
      | b1 :: b2 :: b3 :: r3 =>
        let lo := if (b0 =? 240)%N then 144%N else 128%N in
        let hi := if (b0 =? 244)%N then 143%N else 191%N in
        if in_range lo hi b1 && is_continuation b2 && is_continuation b3
        then cons (N.lor (N.shiftl (low_bits 3 b0) 18)
                     (N.lor (N.shiftl (low_bits 6 b1) 12)
                        (N.lor (N.shiftl (low_bits 6 b2) 6) (low_bits 6 b3))))
               <$> utf8_decode r3
        else None
      | _ => None
      end
    else None
  end.

Definition decode (b : bytes) : option str := utf8_decode (byte_values b).

(** [str.isspace] on one character: the Unicode white space of CPython. *)
Definition isspace (c : N) : bool :=
  in_range 9 13 c || in_range 28 32 c || (c =? 133)%N || (c =? 160)%N
  || (c =? 5760)%N || in_range 8192 8202 c || (c =? 8232)%N
  || (c =? 8233)%N || (c =? 8239)%N || (c =? 8287)%N || (c =? 12288)%N.

Fixpoint lstrip (s : str) : str :=
  match s with
  | [] => []
  | c :: r => if isspace c then lstrip r else s
  end.

Definition rstrip (s : str) : str := rev (lstrip (rev s)).

(** [str.strip()] without argument. *)
Definition strip (s : str) : str := rstrip (lstrip s).

(** [s.split(sep)] for a one-character separator: never the empty list. *)
Fixpoint split (sep : N) (s : str) : list str :=
  match s with
  | [] => [[]]
  | c :: r =>
    if (c =? sep)%N then [] :: split sep r
    else match split sep r with
         | [] => [[c]]
         | h :: t => (c :: h) :: t
         end
  end.

(** [sep.join(parts)] on byte strings. *)
Definition join (sep : string) (parts : list string) : string :=
  String.concat sep parts.

End Py.

(** ** [ipaddress.IPv4Address] *)

Module ipaddress.

(** The object holds the address as one integer, [_ip]. *)
Record IPv4Address : Type := MkIPv4Address { _ip : N }.

Definition is_ascii_digit (c : N) : bool := Py.in_range 48 57 c.

(** [int(octet_str, 10)] on a string of ASCII digits. *)
Definition int_of_digits (s : Py.str) : N :=
  fold_left (λ acc c, (10 * acc + (c - 48))%N) s 0%N.

Definition str_eqb (a b : Py.str) : bool := bool_decide (a = b).

(** [_parse_octet]: [None] stands for the [ValueError] it raises.  Leading
    zeros are refused, as [inet_pton] does. *)
Definition _parse_octet (octet_str : Py.str) : option N :=
  match octet_str with
  | [] => None
  | c0 :: _ =>
    if negb (forallb is_ascii_digit octet_str) then None
    else if (3 <? length octet_str)%nat then None
    else if negb (str_eqb octet_str [48%N]) && (c0 =? 48)%N then None
    else
      let octet_int := int_of_digits octet_str in
      if (255 <? octet_int)%N then None else Some octet_int
  end.

(** [int.from_bytes(octets, 'big')]. *)
Definition int_from_bytes_big (octets : list N) : N :=
  fold_left (λ acc b, N.lor (N.shiftl acc 8) b) octets 0%N.

(** [_ip_int_from_string]: [None] stands for [AddressValueError]. *)
Definition _ip_int_from_string (ip_str : Py.str) : option N :=
  match ip_str with
  | [] => None
  | _ =>
    let octets := Py.split 46 ip_str in
    if negb (length octets =? 4)%nat then None
    else int_from_bytes_big <$> mapM _parse_octet octets
  end.

(** [IPv4Address(address)] for a [str] argument. *)
Definition of_str (address : Py.str) : option IPv4Address :=
  if bool_decide (47%N ∈ address) then None
  else MkIPv4Address <$> _ip_int_from_string address.

(** [ip.to_bytes(4, 'big')]. *)
Definition to_bytes4_big (ip : N) : list N :=
  [ N.land (N.shiftr ip 24) 255; N.land (N.shiftr ip 16) 255;
    N.land (N.shiftr ip 8) 255; N.land ip 255 ]%N.

(** [str(address)]: the dotted quad in decimal. *)
Definition to_string (a : IPv4Address) : string :=
  Py.join "." (pretty <$> to_bytes4_big (_ip a)).

End ipaddress.

(** ** Template rendering *)

Module jinja2.

(** A parsed template: literal text and [{{ name }}] expressions. *)
Inductive Piece : Type :=
| Text (s : string)
| Expr (name : string).

Definition Template : Type := list Piece.

(** A value printed by an expression: a string prints as itself, [None]
    prints as the word None, an undefined name prints as nothing. *)
Definition to_text (v : option (option string)) : string :=
  match v with
  | Some (Some s) => s
  | Some None => "None"
  | None => EmptyString
  end.

Definition render_piece (context : gmap string (option string)) (p : Piece) : string :=
  match p with
  | Text s => s
  | Expr name => to_text (context !! name)
  end.

(** [template.render] with keyword arguments as the context; autoescaping
    is off in a default [Environment]. *)
Definition render (t : Template) (context : gmap string (option string)) : string :=
  String.concat EmptyString (render_piece context <$> t).

End jinja2.

(** ** Unit status, Pebble layers, the workload container *)

Inductive StatusBase : Type :=
| ActiveStatus (message : string)
| BlockedStatus (message : string)
| WaitingStatus (message : string)
| MaintenanceStatus (message : string)
| UnknownStatus.

Record Service : Type := MkService {
  override : string;
  startup : string;
  command : string;
  environment : gmap string string;
}.

Record Layer : Type := MkLayer {
  summary : string;
  description : string;
  services : gmap string Service;
}.

Module pebble.

(** What the container holds: whether Pebble answers, its files, the
    combined plan and the services started, each with the declaration it
    was started from. *)
Record Container : Type := MkContainer {
  connectable : bool;
  files : gmap string string;
  plan : gmap string Service;
  running : gmap string Service;
}.

Definition nonempty_or (new old : string) : string :=
  if Py.truthy_string new then new else old.

(** Combining a declaration into the one the plan already has: a service
    declared with [override: replace] replaces it, any other is merged
    field by field. *)
Definition combine_service (new old : Service) : option Service :=
  if bool_decide (override new = "replace") then Some new
  else Some {| override := override new;
               startup := nonempty_or (startup new) (startup old);
               command := nonempty_or (command new) (command old);
               environment := environment new ∪ environment old |}.

Definition combine_plan (layer : Layer) (p : gmap string Service) : gmap string Service :=
  union_with combine_service (services layer) p.

Definition is_enabled (s : Service) : bool :=
  bool_decide (startup s = "enabled").

(** [replan]: every service of the plan that starts automatically, or that
    is running already, now runs with the plan's declaration. *)
Definition replan_services (p r : gmap string Service) : gmap string Service :=
  merge (λ declared started,
           match declared, started with
           | Some s, Some _ => Some s
           | Some s, None => if is_enabled s then Some s else None
           | None, started => started
           end) p r.

Definition set_files (f : gmap string string) (c : Container) : Container :=
  {| connectable := connectable c; files := f;
     plan := plan c; running := running c |}.

Definition set_plan (p : gmap string Service) (c : Container) : Container :=
  {| connectable := connectable c; files := files c;
     plan := p; running := running c |}.

Definition set_running (r : gmap string Service) (c : Container) : Container :=
  {| connectable := connectable c; files := files c;
     plan := plan c; running := r |}.

End pebble.

(** ** The world the handler runs in *)

(** The three signals the handler is registered for. *)
Inductive Event : Type :=
| PebbleReadyEvent
| NRFAvailableEvent
| RelationJoinedEvent.

Inductive Exn : Type :=
| CalledProcessError
| UnicodeDecodeError
| AddressValueError
| ConnectionError.

Record World : Type := MkWorld {
  (** [self.model.app.name] and [self.model.name] *)
  app_name : string;
  model_name : string;
  (** the relations of the model, by endpoint name, each with its id *)
  relations : gmap string nat;
  (** what [NRFRequires.get_nrf_url()] returns: the [url] value the provider
      published, if any *)
  nrf_url : option string;
  (** the container named [ausf] *)
  container : pebble.Container;
  (** the standard output of a command run on the host, [None] when it
      cannot be run or exits with an error *)
  subprocess : list string → option Py.bytes;
  (** [self.unit.status] *)
  unit_status : StatusBase;
}.

Definition set_container (c : pebble.Container) (w : World) : World :=
  {| app_name := app_name w; model_name := model_name w;
     relations := relations w; nrf_url := nrf_url w; container := c;
     subprocess := subprocess w; unit_status := unit_status w |}.

Definition set_unit_status (s : StatusBase) (w : World) : World :=
  {| app_name := app_name w; model_name := model_name w;
     relations := relations w; nrf_url := nrf_url w;
     container := container w; subprocess := subprocess w;
     unit_status := s |}.

(** Every call made to a collaborator. *)
Inductive Call : Type :=
| GetRelation (relation_name : string)
| CanConnect
| GetNrfUrl
| Exists (path : string)
| Push (path source : string)
| CheckOutput (args : list string)
| AddLayer (label : string) (layer : Layer) (combine : bool)
| Replan
| SetStatus (s : StatusBase)
| Defer (event : Event).

(** ** The monad: state, trace of calls, exceptions *)

Inductive Result (A : Type) : Type :=
| Returned (a : A)
| Raised (e : Exn).
Arguments Returned {A} a.
Arguments Raised {A} e.

Record Outcome (A : Type) : Type := MkOutcome {
  result : Result A;
  after : World;
  trace : list Call;
}.
Arguments MkOutcome {A} _ _ _.
Arguments result {A} _.
Arguments after {A} _.
Arguments trace {A} _.

Definition M (A : Type) : Type := World → Outcome A.

#[global] Instance M_ret : MRet M := λ A a w, MkOutcome (Returned a) w [].

#[global] Instance M_bind : MBind M := λ A B f m w,
  match m w with
  | MkOutcome (Returned a) w1 t1 =>
    match f a w1 with
    | MkOutcome r w2 t2 => MkOutcome r w2 (t1 ++ t2)
    end
  | MkOutcome (Raised e) w1 t1 => MkOutcome (Raised e) w1 t1
  end.

Definition raise {A : Type} (e : Exn) : M A := λ w, MkOutcome (Raised e) w [].

(** A call that reads the world. *)
Definition query {A : Type} (c : Call) (read : World → A) : M A :=
  λ w, MkOutcome (Returned (read w)) w [c].

(** A call that changes the world. *)
Definition effect (c : Call) (change : World → World) : M unit :=
  λ w, MkOutcome (Returned ()) (change w) [c].

Definition or_raise {A : Type} (e : Exn) (o : option A) : M A :=
  match o with
  | Some a => mret a
  | None => raise e
  end.

(** A call to Pebble: it goes through when the container answers, and
    raises [ConnectionError] when it does not. *)
Definition when_connected {A : Type} (c : Call) (m : M A) : M A :=
  λ w, if pebble.connectable (container w) then m w
       else MkOutcome (Raised ConnectionError) w [c].

(** ** Collaborators *)

(** [self.model.get_relation(relation_name)] *)
Definition get_relation (relation_name : string) : M (option nat) :=
  query (GetRelation relation_name) (λ w, relations w !! relation_name).

(** [self._nrf_requires.get_nrf_url()] *)
Definition get_nrf_url : M (option string) :=
  query GetNrfUrl nrf_url.

(** [self._container.can_connect()] *)
Definition can_connect : M bool :=
  query CanConnect (λ w, pebble.connectable (container w)).

(** [self._container.exists(path)] *)
Definition exists_ (path : string) : M bool :=
  when_connected (Exists path)
    (query (Exists path)
       (λ w, bool_decide (is_Some (pebble.files (container w) !! path)))).

(** [self._container.push(path=..., source=...)] *)
Definition push (path source : string) : M unit :=
  when_connected (Push path source)
    (effect (Push path source)
       (λ w, set_container
               (pebble.set_files
                  (<[path := source]> (pebble.files (container w)))
                  (container w)) w)).

(** [self._container.add_layer(label, layer, combine=...)] *)
Definition add_layer (label : string) (layer : Layer) (combine : bool) : M unit :=
  when_connected (AddLayer label layer combine)
    (effect (AddLayer label layer combine)
       (λ w, set_container
               (pebble.set_plan
                  (pebble.combine_plan layer (pebble.plan (container w)))
                  (container w)) w)).

(** [self._container.replan()] *)
Definition replan : M unit :=
  when_connected Replan
    (effect Replan
       (λ w, set_container
               (pebble.set_running
                  (pebble.replan_services (pebble.plan (container w))
                     (pebble.running (container w)))
                  (container w)) w)).

(** [subprocess.check_output(args)] *)
Definition check_output (args : list string) : M Py.bytes :=
  out ← query (CheckOutput args) (λ w, subprocess w args);
  or_raise CalledProcessError out.

(** [self.unit.status = s] *)
Definition set_status (s : StatusBase) : M unit :=
  effect (SetStatus s) (set_unit_status s).

(** [event.defer()] *)
Definition defer (event : Event) : M unit :=
  effect (Defer event) id.

(** ** The charm *)

Definition BASE_CONFIG_PATH : string := "/etc/ausf".
Definition CONFIG_FILE_NAME : string := "ausfcfg.conf".

Definition config_file_path : string :=
  BASE_CONFIG_PATH +:+ "/" +:+ CONFIG_FILE_NAME.

Definition LF : string := String "010"%char EmptyString.
Definition DQ : string := String "034"%char EmptyString.

(** *** The configuration template *)

Definition logger_names : list string :=
  [
    "AMF"; "AUSF"; "Aper"; "CommonConsumerTest"; "FSM";
    "MongoDBLibrary"; "N3IWF"; "NAS"; "NGAP"; "NRF"; "NamfComm";
    "NamfEventExposure"; "NsmfPDUSession"; "NudrDataRepository";
    "OpenApi"; "PCF"; "PFCP"; "PathUtil"; "SMF"; "UDM"; "UDR"; "WEBUI" ].

Definition logger_entry (name : string) : list string :=
  [ "  " +:+ name +:+ ":"; "    ReportCaller: false"; "    debugLevel: info" ].

(** The lines of the configuration document for a dependency URL and a
    host name: the fixed schema with its two variable fields. *)
Definition schema_lines (nrf_uri register_ipv4 : string) : list string :=
  [ "configuration:";
    "  groupId: ausfGroup001";
    "  nrfUri: " +:+ nrf_uri;
    "  plmnSupportList:";
    "  - mcc: " +:+ DQ +:+ "208" +:+ DQ;
    "    mnc: " +:+ DQ +:+ "93" +:+ DQ;
    "  sbi:";
    "    bindingIPv4: 0.0.0.0";
    "    port: 29509";
    "    registerIPv4: " +:+ register_ipv4;
    "    scheme: http";
    "  serviceNameList:";
    "  - nausf-auth";
    "info:";
    "  description: AUSF initial local configuration";
    "  version: 1.0.0";
    "logger:" ]
  ++ concat (logger_entry <$> logger_names).

Definition schema_prefix : string :=
  Py.join LF [ "configuration:"; "  groupId: ausfGroup001"; "  nrfUri: " ].

Definition schema_middle : string :=
  Py.join LF
    [ EmptyString;
      "  plmnSupportList:";
      "  - mcc: " +:+ DQ +:+ "208" +:+ DQ;
      "    mnc: " +:+ DQ +:+ "93" +:+ DQ;
      "  sbi:";
      "    bindingIPv4: 0.0.0.0";
      "    port: 29509";
      "    registerIPv4: " ].

Definition schema_suffix : string :=
  Py.join LF
    ([ EmptyString;
       "    scheme: http";
       "  serviceNameList:";
       "  - nausf-auth";
       "info:";
       "  description: AUSF initial local configuration";
       "  version: 1.0.0";
       "logger:" ]
     ++ concat (logger_entry <$> logger_names)).

(** Modelled from the spec: the template file [src/templates/ausfcfg.conf.j2]
    is not among the sources.  It is the literal schema of the external
    interfaces section, laid out as the unit test expects the pushed file,
    with the expression [nrf_url] in the field [nrfUri] and the expression
    [ausf_url] in the field [registerIPv4]. *)
Definition ausfcfg_conf_j2 : jinja2.Template :=
  [ jinja2.Text schema_prefix; jinja2.Expr "nrf_url";
    jinja2.Text schema_middle; jinja2.Expr "ausf_url";
    jinja2.Text schema_suffix ].

(** The [source] argument that the unit test
    [test_given_nrf_is_available_when_databases_are_created_then_config_file_is_written]
    expects [push] to be called with, line by line. *)
Definition test_expected_source (nrf_url : string) : string :=
  Py.join LF [
    "configuration:";
    "  groupId: ausfGroup001";
    "  nrfUri: " +:+ nrf_url;
    "  plmnSupportList:";
    "  - mcc: " +:+ DQ +:+ "208" +:+ DQ;
    "    mnc: " +:+ DQ +:+ "93" +:+ DQ;
    "  sbi:";
    "    bindingIPv4: 0.0.0.0";
    "    port: 29509";
    "    registerIPv4: ausf-operator.whatever.svc.cluster.local";
    "    scheme: http";
    "  serviceNameList:";
    "  - nausf-auth";
    "info:";
    "  description: AUSF initial local configuration";
    "  version: 1.0.0";
    "logger:";
    "  AMF:";
    "    ReportCaller: false";
    "    debugLevel: info";
    "  AUSF:";
    "    ReportCaller: false";
    "    debugLevel: info";
    "  Aper:";
    "    ReportCaller: false";
    "    debugLevel: info";
    "  CommonConsumerTest:";
    "    ReportCaller: false";
    "    debugLevel: info";
    "  FSM:";
    "    ReportCaller: false";
    "    debugLevel: info";
    "  MongoDBLibrary:";
    "    ReportCaller: false";
    "    debugLevel: info";
    "  N3IWF:";
    "    ReportCaller: false";
    "    debugLevel: info";
    "  NAS:";
    "    ReportCaller: false";
    "    debugLevel: info";
    "  NGAP:";
    "    ReportCaller: false";
    "    debugLevel: info";
    "  NRF:";
    "    ReportCaller: false";
    "    debugLevel: info";
    "  NamfComm:";
    "    ReportCaller: false";
    "    debugLevel: info";
    "  NamfEventExposure:";
    "    ReportCaller: false";
    "    debugLevel: info";
    "  NsmfPDUSession:";
    "    ReportCaller: false";
    "    debugLevel: info";
    "  NudrDataRepository:";
    "    ReportCaller: false";
    "    debugLevel: info";
    "  OpenApi:";
    "    ReportCaller: false";
    "    debugLevel: info";
    "  PCF:";
    "    ReportCaller: false";
    "    debugLevel: info";
    "  PFCP:";
    "    ReportCaller: false";
    "    debugLevel: info";
    "  PathUtil:";
    "    ReportCaller: false";
    "    debugLevel: info";
    "  SMF:";
    "    ReportCaller: false";
    "    debugLevel: info";
    "  UDM:";
    "    ReportCaller: false";
    "    debugLevel: info";
    "  UDR:";
    "    ReportCaller: false";
    "    debugLevel: info";
    "  WEBUI:";
    "    ReportCaller: false";
    "    debugLevel: info" ].

(** *** Reading the document back *)

Definition is_lf (c : ascii) : bool := Ascii.eqb c "010"%char.

Definition no_lf (s : string) : bool :=
  forallb (λ c, negb (is_lf c)) (list_ascii_of_string s).

(** The lines of a text. *)
Fixpoint text_lines (s : string) : list string :=
  match s with
  | EmptyString => [EmptyString]
  | String c r =>
    if is_lf c then EmptyString :: text_lines r
    else match text_lines r with
         | [] => [String c EmptyString]
         | h :: t => String c h :: t
         end
  end.

Fixpoint skip_spaces (s : string) : string :=
  match s with
  | String c r => if Ascii.eqb c " "%char then skip_spaces r else s
  | EmptyString => EmptyString
  end.

Fixpoint strip_prefix (p s : string) : option string :=
  match p, s with
  | EmptyString, _ => Some s
  | String a p', String b s' => if Ascii.eqb a b then strip_prefix p' s' else None
  | String _ _, EmptyString => None
  end.

(** The scalar of a line [key: value], whatever its indentation. *)
Definition line_field (key line : string) : option string :=
  strip_prefix (key +:+ ": ") (skip_spaces line).

Fixpoint find_field (key : string) (ls : list string) : option string :=
  match ls with
  | [] => None
  | l :: r =>
    match line_field key l with
    | Some v => Some v
    | None => find_field key r
    end
  end.

(** The value of the first field named [key] in a document. *)
Definition config_field (key content : string) : option string :=
  find_field key (text_lines content).

(** *** Properties and the handler *)

(** An attribute read from the model: not a call to a collaborator. *)
Definition attribute {A : Type} (read : World → A) : M A :=
  λ w, MkOutcome (Returned (read w)) w [].

Definition _ausf_hostname : M string :=
  app ← attribute app_name;
  model ← attribute model_name;
  mret (app +:+ "." +:+ model +:+ ".svc.cluster.local").

Definition _write_config_file (nrf_url : option string) : M unit :=
  ausf_url ← _ausf_hostname;
  let content :=
    jinja2.render ausfcfg_conf_j2
      (list_to_map [ ("nrf_url", nrf_url); ("ausf_url", Some ausf_url) ]) in
  push (BASE_CONFIG_PATH +:+ "/" +:+ CONFIG_FILE_NAME) content.

Definition _nrf_data_is_available : M bool :=
  url ← get_nrf_url;
  if negb (Py.truthy_option Py.truthy_string url) then mret false
  else mret true.

Definition _config_file_is_written : M bool :=
  present ← exists_ (BASE_CONFIG_PATH +:+ "/" +:+ CONFIG_FILE_NAME);
  if negb present then mret false
  else mret true.

Definition _relation_created (relation_name : string) : M bool :=
  relation ← get_relation relation_name;
  if negb (Py.truthy_option Py.truthy_object relation) then mret false
  else mret true.

Definition _nrf_relation_is_created : M bool := _relation_created "nrf".

Definition _pod_ip : M ipaddress.IPv4Address :=
  out ← check_output [ "unit-get"; "private-address" ];
  text ← or_raise UnicodeDecodeError (Py.decode out);
  or_raise AddressValueError (ipaddress.of_str (Py.strip text)).

Definition _environment_variables : M (gmap string string) :=
  pod_ip ← _pod_ip;
  mret (list_to_map
          [ ("GRPC_GO_LOG_VERBOSITY_LEVEL", "99");
            ("GRPC_GO_LOG_SEVERITY_LEVEL", "info");
            ("GRPC_TRACE", "all");
            ("GRPC_VERBOSITY", "debug");
            ("POD_IP", ipaddress.to_string pod_ip);
            ("MANAGED_BY_CONFIG_POD", "true") ]).

Definition _pebble_layer : M Layer :=
  env ← _environment_variables;
  mret {| summary := "ausf layer";
          description := "pebble config layer for ausf";
          services :=
            {[ "ausf" :=
                 {| override := "replace";
                    startup := "enabled";
                    command := "/free5gc/ausf/ausf --ausfcfg "
                               +:+ BASE_CONFIG_PATH +:+ "/" +:+ CONFIG_FILE_NAME;
                    environment := env |} ]} |}.

(** The handler of the three signals.  Each early [return] of the source is
    the end of a branch here. *)
Definition _on_ausf_pebble_ready (event : Event) : M unit :=
  created ← _nrf_relation_is_created;
  if negb created then
    set_status (BlockedStatus "Waiting for NRF relation to be created")
  else
    connected ← can_connect;
    if negb connected then
      set_status (WaitingStatus "Waiting for container to be ready");;
      defer event
    else
      available ← _nrf_data_is_available;
      if negb available then
        set_status (WaitingStatus "Waiting for NRF data to be available")
      else
        written ← _config_file_is_written;
        (if negb written then
           nrf_url ← get_nrf_url;
           _write_config_file nrf_url
         else mret ());;
        layer ← _pebble_layer;
        add_layer "ausf" layer true;;
        replan;;
        set_status (ActiveStatus EmptyString).

(** ** Vocabulary for the statements *)

Definition set_nrf_url (u : option string) (w : World) : World :=
  {| app_name := app_name w; model_name := model_name w;
     relations := relations w; nrf_url := u; container := container w;
     subprocess := subprocess w; unit_status := unit_status w |}.

Definition is_defer (c : Call) : bool :=
  match c with Defer _ => true | _ => false end.

Definition is_push (c : Call) : bool :=
  match c with Push _ _ => true | _ => false end.

Definition is_add_layer (c : Call) : bool :=
  match c with AddLayer _ _ _ => true | _ => false end.

Definition is_replan (c : Call) : bool :=
  match c with Replan => true | _ => false end.

Definition is_set_status (c : Call) : bool :=
  match c with SetStatus _ => true | _ => false end.

(** How many calls of a kind a trace holds. *)
Fixpoint count_calls (kind : Call → bool) (t : list Call) : nat :=
  match t with
  | [] => 0
  | c :: r => (if kind c then 1 else 0) + count_calls kind r
  end.

(** The command line of the host-metadata query. *)
Definition unit_get_private_address : list string :=
  [ "unit-get"; "private-address" ].

(** The host name the charm registers. *)
Definition hostname_of (w : World) : string :=
  app_name w +:+ "." +:+ model_name w +:+ ".svc.cluster.local".

(** The document the charm pushes for a URL and a host name. *)
Definition rendered_config (nrf_url : option string) (hostname : string) : string :=
  jinja2.render ausfcfg_conf_j2
    (list_to_map [ ("nrf_url", nrf_url); ("ausf_url", Some hostname) ]).

(** The world once the configuration file has been pushed. *)
Definition after_push (w : World) : World :=
  set_container
    (pebble.set_files
       (<[config_file_path := rendered_config (nrf_url w) (hostname_of w)]>
          (pebble.files (container w)))
       (container w)) w.

(** The environment, the service and the layer the charm declares for a pod
    address, as the unit test expects the plan. *)
Definition expected_environment (pod_ip : string) : gmap string string :=
  list_to_map
    [ ("GRPC_GO_LOG_VERBOSITY_LEVEL", "99");
      ("GRPC_GO_LOG_SEVERITY_LEVEL", "info");
      ("GRPC_TRACE", "all");
      ("GRPC_VERBOSITY", "debug");
      ("POD_IP", pod_ip);
      ("MANAGED_BY_CONFIG_POD", "true") ].

Definition expected_service (pod_ip : string) : Service :=
  {| override := "replace";
     startup := "enabled";
     command := "/free5gc/ausf/ausf --ausfcfg /etc/ausf/ausfcfg.conf";
     environment := expected_environment pod_ip |}.

Definition expected_layer (pod_ip : string) : Layer :=
  {| summary := "ausf layer";
     description := "pebble config layer for ausf";
     services := {[ "ausf" := expected_service pod_ip ]} |}.

(** The world once the layer for [pod_ip] is added, the plan applied and the
    status set to active. *)
Definition after_apply (pod_ip : string) (w : World) : World :=
  let c := container w in
  let p := pebble.combine_plan (expected_layer pod_ip) (pebble.plan c) in
  set_unit_status (ActiveStatus EmptyString)
    (set_container
       {| pebble.connectable := pebble.connectable c;
          pebble.files := pebble.files c;
          pebble.plan := p;
          pebble.running := pebble.replan_services p (pebble.running c) |} w).

(** The ambient state a pass observes. *)
Record Ambient : Type := MkAmbient {
  relation_exists : bool;
  container_connectable : bool;
  url_available : bool;
  config_written : bool;
}.

Definition ambient (w : World) : Ambient :=
  {| relation_exists := bool_decide (is_Some (relations w !! "nrf"));
     container_connectable := pebble.connectable (container w);
     url_available := Py.truthy_option Py.truthy_string (nrf_url w);
     config_written :=
       bool_decide (is_Some (pebble.files (container w) !! config_file_path)) |}.

Definition checks_pass (a : Ambient) : bool :=
  relation_exists a && container_connectable a && url_available a.

(** The status a pass that runs to its end leaves, from the ambient state. *)
Definition status_for (a : Ambient) : StatusBase :=
  if negb (relation_exists a) then
    BlockedStatus "Waiting for NRF relation to be created"
  else if negb (container_connectable a) then
    WaitingStatus "Waiting for container to be ready"
  else if negb (url_available a) then
    WaitingStatus "Waiting for NRF data to be available"
  else ActiveStatus EmptyString.

(** Whether the host-metadata query yields an address. *)
Definition address_resolves (w : World) : bool :=
  match result (_pod_ip w) with
  | Returned _ => true
  | Raised _ => false
  end.

(** Whether a text holds another. *)
Fixpoint has_prefix (p s : string) : bool :=
  match p, s with
  | EmptyString, _ => true
  | String a p', String b s' => Ascii.eqb a b && has_prefix p' s'
  | String _ _, EmptyString => false
  end.

Fixpoint contains (needle s : string) : bool :=
  has_prefix needle s ||
  match s with
  | EmptyString => false
  | String _ r => contains needle r
  end.

(** Whether the configuration file is in the container. *)
Definition config_present (w : World) : bool :=
  bool_decide (is_Some (pebble.files (container w) !! config_file_path)).

(** The world when the pass reaches the layer: the file is pushed if it was
    not there. *)
Definition prepared (w : World) : World :=
  if config_present w then w else after_push w.

(** The calls of a pass whose three checks succeed, up to the host-metadata
    query. *)
Definition calls_before_layer (w : World) : list Call :=
  [ GetRelation "nrf"; CanConnect; GetNrfUrl; Exists config_file_path ]
  ++ (if config_present w then []
      else [ GetNrfUrl;
             Push config_file_path
               (rendered_config (nrf_url w) (hostname_of w)) ])
  ++ [ CheckOutput unit_get_private_address ].

(** The calls that apply the layer and close the pass. *)
Definition calls_of_apply (pod_ip : string) : list Call :=
  [ AddLayer "ausf" (expected_layer pod_ip) true; Replan;
    SetStatus (ActiveStatus EmptyString) ].

(** *** Sample worlds *)

Definition answers (out : option Py.bytes) : list string → option Py.bytes :=
  λ args, if bool_decide (args = unit_get_private_address) then out else None.

Definition empty_container (connected : bool) : pebble.Container :=
  {| pebble.connectable := connected; pebble.files := ∅;
     pebble.plan := ∅; pebble.running := ∅ |}.

Definition configured_container : pebble.Container :=
  {| pebble.connectable := true;
     pebble.files := {[ config_file_path := "nrfUri: http://old" ]};
     pebble.plan := ∅; pebble.running := ∅ |}.

(** The model of the unit tests: application [ausf-operator] in the model
    [whatever]. *)
Definition test_world (rels : gmap string nat) (url : option string)
    (c : pebble.Container) (out : option Py.bytes) (st : StatusBase) : World :=
  {| app_name := "ausf-operator"; model_name := "whatever";
     relations := rels; nrf_url := url; container := c;
     subprocess := answers out; unit_status := st |}.

Definition world_without_relation : World :=
  test_world ∅ (Some "http://1.1.1.1") (empty_container true)
    (Some "1.2.3.4") (MaintenanceStatus EmptyString).

Definition world_not_connected : World :=
  test_world {[ "nrf" := 0 ]} (Some "http://1.1.1.1") (empty_container false)
    (Some "1.2.3.4") (MaintenanceStatus EmptyString).

Definition world_without_url : World :=
  test_world {[ "nrf" := 0 ]} None (empty_container true)
    (Some "1.2.3.4") (MaintenanceStatus EmptyString).

Definition world_empty_url : World :=
  test_world {[ "nrf" := 0 ]} (Some EmptyString) (empty_container true)
    (Some "1.2.3.4") (MaintenanceStatus EmptyString).

Definition world_ready : World :=
  test_world {[ "nrf" := 0 ]} (Some "http://1.1.1.1") (empty_container true)
    (Some "1.2.3.4") (MaintenanceStatus EmptyString).

Definition world_configured : World :=
  test_world {[ "nrf" := 0 ]} (Some "http://1.1.1.1") configured_container
    (Some "1.1.1.1") (MaintenanceStatus EmptyString).

Definition world_configured_no_address (st : StatusBase) : World :=
  test_world {[ "nrf" := 0 ]} (Some "http://1.1.1.1") configured_container
    None st.

Definition world_configured_later : World :=
  test_world {[ "nrf" := 3 ]} (Some "http://2.2.2.2") configured_container
    (Some "10.0.0.7") (WaitingStatus "Waiting for NRF data to be available").

Definition world_ready_no_address : World :=
  test_world {[ "nrf" := 0 ]} (Some "http://1.1.1.1") (empty_container true)
    None (MaintenanceStatus EmptyString).

(** *** Vocabulary for the properties of whole passes *)

Definition set_subprocess (sub : list string → option Py.bytes) (w : World) : World :=
  {| app_name := app_name w; model_name := model_name w;
     relations := relations w; nrf_url := nrf_url w; container := container w;
     subprocess := sub; unit_status := unit_status w |}.

(** The ways a pass of the handler can go, each with its whole outcome. *)
Inductive pass_case (event : Event) (w : World) : Outcome unit → Prop :=
| pass_blocked :
    relations w !! "nrf" = None →
    pass_case event w
      (MkOutcome (Returned ())
         (set_unit_status
            (BlockedStatus "Waiting for NRF relation to be created") w)
         [ GetRelation "nrf";
           SetStatus (BlockedStatus "Waiting for NRF relation to be created") ])
| pass_deferred (r : nat) :
    relations w !! "nrf" = Some r →
    pebble.connectable (container w) = false →
    pass_case event w
      (MkOutcome (Returned ())
         (set_unit_status (WaitingStatus "Waiting for container to be ready") w)
         [ GetRelation "nrf"; CanConnect;
           SetStatus (WaitingStatus "Waiting for container to be ready");
           Defer event ])
| pass_waiting (r : nat) :
    relations w !! "nrf" = Some r →
    pebble.connectable (container w) = true →
    Py.truthy_option Py.truthy_string (nrf_url w) = false →
    pass_case event w
      (MkOutcome (Returned ())
         (set_unit_status
            (WaitingStatus "Waiting for NRF data to be available") w)
         [ GetRelation "nrf"; CanConnect; GetNrfUrl;
           SetStatus (WaitingStatus "Waiting for NRF data to be available") ])
| pass_applied (r : nat) (ip : ipaddress.IPv4Address) :
    relations w !! "nrf" = Some r →
    pebble.connectable (container w) = true →
    Py.truthy_option Py.truthy_string (nrf_url w) = true →
    result (_pod_ip w) = Returned ip →
    pass_case event w
      (MkOutcome (Returned ())
         (after_apply (ipaddress.to_string ip) (prepared w))
         (calls_before_layer w ++ calls_of_apply (ipaddress.to_string ip)))
| pass_aborted (r : nat) (e : Exn) :
    relations w !! "nrf" = Some r →
    pebble.connectable (container w) = true →
    Py.truthy_option Py.truthy_string (nrf_url w) = true →
    result (_pod_ip w) = Raised e →
    pass_case event w
      (MkOutcome (Raised e) (prepared w) (calls_before_layer w)).

(** A trace without its deferrals. *)
Fixpoint without_defer (t : list Call) : list Call :=
  match t with
  | [] => []
  | c :: r => if is_defer c then without_defer r else c :: without_defer r
  end.

(** Whether a status write of Active is among the calls. *)
Definition sets_active (c : Call) : bool :=
  match c with
  | SetStatus (ActiveStatus _) => true
  | _ => false
  end.

(** [sep.join(parts)] on decoded text, for a one-character separator. *)
Fixpoint join_codepoints (sep : N) (parts : list Py.str) : Py.str :=
  match parts with
  | [] => []
  | [p] => p
  | p :: rest => (p ++ sep :: join_codepoints sep rest)%list
  end.

(** The text [a.b.c.d] in decimal. *)
Definition dotted_quad (a b c d : N) : string :=
  pretty a +:+ "." +:+ pretty b +:+ "." +:+ pretty c +:+ "." +:+ pretty d.

(** The code points of the ten digits, and every text of one to three of
    them. *)
Definition digit_codes : list N := [48; 49; 50; 51; 52; 53; 54; 55; 56; 57]%N.

Definition digit_strings : list Py.str :=
  flat_map
    (λ a, [a] :: flat_map
                   (λ b, [a; b] :: ((λ c, [a; b; c]) <$> digit_codes))
                   digit_codes)
    digit_codes.

(** What [_parse_octet] accepts prints back as it was read. *)
Definition octet_round_trip (o : Py.str) : bool :=
  match ipaddress._parse_octet o with
  | Some n => (n <=? 255)%N && bool_decide (Py.byte_values (pretty n) = o)
  | None => true
  end.

(** A number up to 255, printed, is digits that [_parse_octet] reads back. *)
Definition octet_accepted (n : N) : bool :=
  let o := Py.byte_values (pretty n) in
  bool_decide (ipaddress._parse_octet o = Some n)
  && forallb ipaddress.is_ascii_digit o
  && match o with [] => false | _ :: _ => true end.

Definition octet_values : list N := N.of_nat <$> seq 0 256.

(** One more sample: the query prints an address and a line break. *)
Definition world_ready_other_address : World :=
  test_world {[ "nrf" := 0 ]} (Some "http://1.1.1.1") (empty_container true)
    (Some ("10.1.20.255" +:+ LF)) (MaintenanceStatus EmptyString).

(** *** Proof steps *)

(** Unfolds the handler and its collaborators down to the reads of the
    world, leaving maps and strings alone. *)
Ltac run_pass :=
  cbv [ _on_ausf_pebble_ready _nrf_relation_is_created _relation_created
        _nrf_data_is_available _config_file_is_written _write_config_file
        _ausf_hostname _pebble_layer _environment_variables
        get_relation get_nrf_url can_connect exists_ push add_layer replan
        set_status defer query effect attribute when_connected
        mbind mret M_bind M_ret negb
        Py.truthy_option Py.truthy_object Py.truthy_string
        app relations nrf_url container subprocess unit_status app_name
        model_name pebble.connectable pebble.files pebble.plan pebble.running
        set_container set_unit_status pebble.set_files pebble.set_plan
        pebble.set_running id ].

Ltac open_world w :=
  destruct w as [an mn rels url [conn fs pl rn] sub st]; simpl in *.

(** * Properties *)

(** ** The template *)

Lemma rendered_config_text (u h : string) :
  rendered_config (Some u) h
  = schema_prefix +:+ u +:+ schema_middle +:+ h +:+ schema_suffix.
Proof.
  unfold rendered_config, jinja2.render, ausfcfg_conf_j2.
  cbn [fmap list_fmap jinja2.render_piece list_to_map foldr curry fst snd].
  rewrite lookup_insert_eq.
  rewrite lookup_insert_ne by discriminate.
  rewrite lookup_insert_eq.
  reflexivity.
Qed.

Lemma schema_text_lines (u h : string) :
  schema_prefix +:+ u +:+ schema_middle +:+ h +:+ schema_suffix
  = Py.join LF (schema_lines u h).
Proof. vm_compute. reflexivity. Qed.

Lemma text_lines_not_nil (s : string) : text_lines s ≠ [].
Proof.
  destruct s as [|c r]; simpl; [discriminate|].
  destruct (is_lf c); [discriminate|].
  destruct (text_lines r); discriminate.
Qed.

Lemma text_lines_one (l : string) : no_lf l = true → text_lines l = [l].
Proof.
  unfold no_lf. induction l as [|c l IH]; simpl; [reflexivity|].
  intros [Hc Hl]%andb_prop. apply negb_true_iff in Hc. rewrite Hc.
  rewrite (IH Hl). reflexivity.
Qed.

Lemma text_lines_app (l s : string) :
  no_lf l = true →
  text_lines (l +:+ LF +:+ s) = l :: text_lines s.
Proof.
  unfold no_lf. induction l as [|c l IH]; simpl; [reflexivity|].
  intros [Hc Hl]%andb_prop. apply negb_true_iff in Hc. rewrite Hc.
  rewrite (IH Hl). reflexivity.
Qed.

Lemma text_lines_join (ls : list string) :
  ls ≠ [] →
  forallb no_lf ls = true →
  text_lines (Py.join LF ls) = ls.
Proof.
  induction ls as [|l ls IH]; [congruence|]. intros _.
  simpl. intros [Hl Hls]%andb_prop.
  destruct ls as [|l' ls].
  - now apply text_lines_one.
  - change (Py.join LF (l :: l' :: ls))
      with (l +:+ LF +:+ Py.join LF (l' :: ls)).
    rewrite text_lines_app by assumption.
    rewrite IH; [reflexivity|discriminate|assumption].
Qed.

Lemma no_lf_append (a b : string) : no_lf (a +:+ b) = no_lf a && no_lf b.
Proof.
  unfold no_lf. induction a as [|c a IH]; simpl; [reflexivity|].
  rewrite IH. now rewrite andb_assoc.
Qed.

Lemma schema_lines_no_lf (u h : string) :
  no_lf u = true → no_lf h = true → forallb no_lf (schema_lines u h) = true.
Proof.
  intros Hu Hh. unfold schema_lines. rewrite forallb_app.
  apply andb_true_intro; split; [|vm_compute; reflexivity].
  cbn [forallb]. rewrite !no_lf_append, Hu, Hh. vm_compute. reflexivity.
Qed.

Lemma schema_fields (u h : string) :
  find_field "nrfUri" (schema_lines u h) = Some u
  ∧ find_field "registerIPv4" (schema_lines u h) = Some h.
Proof. split; vm_compute; reflexivity. Qed.

(** ** The host-metadata query *)

(** The query reads nothing but the command's output and leaves the world
    as it is. *)
Lemma pod_ip_outcome (w w' : World) :
  subprocess w' = subprocess w →
  _pod_ip w'
  = MkOutcome (result (_pod_ip w)) w' [ CheckOutput unit_get_private_address ].
Proof.
  intros H.
  cbv [ _pod_ip check_output query or_raise raise mbind mret M_bind M_ret
        result app unit_get_private_address ].
  rewrite H.
  destruct (subprocess w _) as [out|]; [|reflexivity].
  destruct (Py.decode out) as [text|]; [|reflexivity].
  destruct (ipaddress.of_str _); reflexivity.
Qed.

(** ** The four ways a pass can go *)

Lemma pass_without_relation (event : Event) (w : World) :
  relations w !! "nrf" = None →
  _on_ausf_pebble_ready event w =
    MkOutcome (Returned ())
      (set_unit_status
         (BlockedStatus "Waiting for NRF relation to be created") w)
      [ GetRelation "nrf";
        SetStatus (BlockedStatus "Waiting for NRF relation to be created") ].
Proof.
  open_world w. intros Hrel. run_pass. now rewrite Hrel.
Qed.

Lemma pass_not_connected (event : Event) (w : World) (r : nat) :
  relations w !! "nrf" = Some r →
  pebble.connectable (container w) = false →
  _on_ausf_pebble_ready event w =
    MkOutcome (Returned ())
      (set_unit_status (WaitingStatus "Waiting for container to be ready") w)
      [ GetRelation "nrf"; CanConnect;
        SetStatus (WaitingStatus "Waiting for container to be ready");
        Defer event ].
Proof.
  open_world w. intros Hrel ->. run_pass. now rewrite Hrel.
Qed.

Lemma pass_without_url (event : Event) (w : World) (r : nat) :
  relations w !! "nrf" = Some r →
  pebble.connectable (container w) = true →
  Py.truthy_option Py.truthy_string (nrf_url w) = false →
  _on_ausf_pebble_ready event w =
    MkOutcome (Returned ())
      (set_unit_status
         (WaitingStatus "Waiting for NRF data to be available") w)
      [ GetRelation "nrf"; CanConnect; GetNrfUrl;
        SetStatus (WaitingStatus "Waiting for NRF data to be available") ].
Proof.
  open_world w. intros Hrel -> Hurl. run_pass. rewrite Hrel.
  destruct url as [[|c u]|]; try discriminate; reflexivity.
Qed.

Lemma pass_after_checks (event : Event) (w : World) (r : nat) :
  relations w !! "nrf" = Some r →
  pebble.connectable (container w) = true →
  Py.truthy_option Py.truthy_string (nrf_url w) = true →
  _on_ausf_pebble_ready event w =
    match result (_pod_ip w) with
    | Returned ip =>
      MkOutcome (Returned ())
        (after_apply (ipaddress.to_string ip) (prepared w))
        (calls_before_layer w ++ calls_of_apply (ipaddress.to_string ip))
    | Raised e => MkOutcome (Raised e) (prepared w) (calls_before_layer w)
    end.
Proof.
  intros Hrel Hconn Hurl.
  unfold prepared, calls_before_layer, config_present, after_push,
    after_apply, hostname_of.
  open_world w. subst conn.
  run_pass. rewrite Hrel.
  destruct url as [[|c u]|]; try discriminate. run_pass.
  pose proof (pod_ip_outcome
                (MkWorld an mn rels (Some (String c u))
                   (pebble.MkContainer true fs pl rn) sub st)) as Hip.
  fold config_file_path. case_bool_decide; run_pass.
  - rewrite Hip by reflexivity.
    destruct (result (_pod_ip _)) as [ip|e]; reflexivity.
  - rewrite Hip by reflexivity.
    destruct (result (_pod_ip _)) as [ip|e]; reflexivity.
Qed.

Lemma config_present_true (w : World) (old : string) :
  pebble.files (container w) !! config_file_path = Some old →
  config_present w = true.
Proof.
  intros H. unfold config_present. apply bool_decide_eq_true. now exists old.
Qed.

Lemma config_present_false (w : World) :
  pebble.files (container w) !! config_file_path = None →
  config_present w = false.
Proof.
  intros H. unfold config_present. apply bool_decide_eq_false.
  rewrite H. intros [x Hx]. discriminate.
Qed.

Lemma truthy_url (u : string) :
  u ≠ EmptyString → Py.truthy_option Py.truthy_string (Some u) = true.
Proof. destruct u; [congruence|reflexivity]. Qed.

(** The plan and the started services after the layer of the charm. *)
Lemma plan_after_layer (pod_ip : string) (p : gmap string Service) :
  pebble.combine_plan (expected_layer pod_ip) p !! "ausf"
  = Some (expected_service pod_ip).
Proof.
  unfold pebble.combine_plan, expected_layer. simpl.
  rewrite lookup_union_with, lookup_singleton_eq.
  destruct (p !! "ausf"); reflexivity.
Qed.

Lemma running_after_replan (pod_ip : string) (p r : gmap string Service) :
  p !! "ausf" = Some (expected_service pod_ip) →
  pebble.replan_services p r !! "ausf" = Some (expected_service pod_ip).
Proof.
  intros H. unfold pebble.replan_services.
  rewrite lookup_merge, H. destruct (r !! "ausf"); reflexivity.
Qed.

(** ** The first three checks *)

(** C1. Whatever the rest of the world, when there is no [nrf] relation the
    pass asks for the relation, sets the status to Blocked with the reason
    "Waiting for NRF relation to be created" and returns: nothing else is
    called (no connectivity, dependency or file check, no deferral) and
    nothing else of the world changes. *)
Theorem relation_missing_blocks (event : Event) (w : World) :
  relations w !! "nrf" = None →
  let o := _on_ausf_pebble_ready event w in
  o = MkOutcome (Returned ())
        (set_unit_status
           (BlockedStatus "Waiting for NRF relation to be created") w)
        [ GetRelation "nrf";
          SetStatus (BlockedStatus "Waiting for NRF relation to be created") ]
  ∧ unit_status (after o)
    = BlockedStatus "Waiting for NRF relation to be created"
  ∧ count_calls is_defer (trace o) = 0.
Proof.
  intros Hrel o. subst o. rewrite pass_without_relation by assumption.
  repeat split.
Qed.

Lemma relation_missing_blocks_witness :
  relations world_without_relation !! "nrf" = None
  ∧ let o := _on_ausf_pebble_ready PebbleReadyEvent world_without_relation in
    o = MkOutcome (Returned ())
          (set_unit_status
             (BlockedStatus "Waiting for NRF relation to be created")
             world_without_relation)
          [ GetRelation "nrf";
            SetStatus
              (BlockedStatus "Waiting for NRF relation to be created") ]
    ∧ unit_status (after o)
      = BlockedStatus "Waiting for NRF relation to be created"
    ∧ count_calls is_defer (trace o) = 0.
Proof.
  split; [vm_compute; reflexivity|].
  apply (relation_missing_blocks PebbleReadyEvent world_without_relation).
  vm_compute. reflexivity.
Defined.

(** C2. When the [nrf] relation exists and the container cannot be reached,
    the pass sets the status to Waiting with the reason "Waiting for
    container to be ready", defers the event that triggered it, once, and
    returns: the dependency data is not read, no file is checked or pushed,
    no layer is added. *)
Theorem container_unreachable_defers (event : Event) (w : World) (r : nat) :
  relations w !! "nrf" = Some r →
  pebble.connectable (container w) = false →
  let o := _on_ausf_pebble_ready event w in
  o = MkOutcome (Returned ())
        (set_unit_status (WaitingStatus "Waiting for container to be ready") w)
        [ GetRelation "nrf"; CanConnect;
          SetStatus (WaitingStatus "Waiting for container to be ready");
          Defer event ]
  ∧ unit_status (after o) = WaitingStatus "Waiting for container to be ready"
  ∧ count_calls is_defer (trace o) = 1.
Proof.
  intros Hrel Hconn o. subst o.
  rewrite (pass_not_connected event w r) by assumption. repeat split.
Qed.

Lemma container_unreachable_defers_witness :
  relations world_not_connected !! "nrf" = Some 0
  ∧ pebble.connectable (container world_not_connected) = false
  ∧ let o := _on_ausf_pebble_ready NRFAvailableEvent world_not_connected in
    o = MkOutcome (Returned ())
          (set_unit_status (WaitingStatus "Waiting for container to be ready")
             world_not_connected)
          [ GetRelation "nrf"; CanConnect;
            SetStatus (WaitingStatus "Waiting for container to be ready");
            Defer NRFAvailableEvent ]
    ∧ unit_status (after o)
      = WaitingStatus "Waiting for container to be ready"
    ∧ count_calls is_defer (trace o) = 1.
Proof.
  split; [vm_compute; reflexivity|]. split; [reflexivity|].
  apply (container_unreachable_defers NRFAvailableEvent world_not_connected 0).
  - vm_compute. reflexivity.
  - reflexivity.
Defined.

(** C3. When the relation exists and the container is reachable but the
    requirer has no URL (none, or an empty one), the pass sets the status to
    Waiting with the reason "Waiting for NRF data to be available" and
    returns: no file check, no push, no layer, no replan, no deferral, and
    the container is left as it was. *)
Theorem dependency_missing_waits (event : Event) (w : World) (r : nat) :
  relations w !! "nrf" = Some r →
  pebble.connectable (container w) = true →
  Py.truthy_option Py.truthy_string (nrf_url w) = false →
  let o := _on_ausf_pebble_ready event w in
  o = MkOutcome (Returned ())
        (set_unit_status
           (WaitingStatus "Waiting for NRF data to be available") w)
        [ GetRelation "nrf"; CanConnect; GetNrfUrl;
          SetStatus (WaitingStatus "Waiting for NRF data to be available") ]
  ∧ unit_status (after o)
    = WaitingStatus "Waiting for NRF data to be available"
  ∧ count_calls is_push (trace o) = 0
  ∧ count_calls is_add_layer (trace o) = 0
  ∧ count_calls is_replan (trace o) = 0
  ∧ count_calls is_defer (trace o) = 0
  ∧ container (after o) = container w.
Proof.
  intros Hrel Hconn Hurl o. subst o.
  rewrite (pass_without_url event w r) by assumption. repeat split.
Qed.

Lemma dependency_missing_waits_witness :
  relations world_without_url !! "nrf" = Some 0
  ∧ pebble.connectable (container world_without_url) = true
  ∧ Py.truthy_option Py.truthy_string (nrf_url world_without_url) = false
  ∧ let o := _on_ausf_pebble_ready PebbleReadyEvent world_without_url in
    o = MkOutcome (Returned ())
          (set_unit_status
             (WaitingStatus "Waiting for NRF data to be available")
             world_without_url)
          [ GetRelation "nrf"; CanConnect; GetNrfUrl;
            SetStatus (WaitingStatus "Waiting for NRF data to be available") ]
    ∧ unit_status (after o)
      = WaitingStatus "Waiting for NRF data to be available"
    ∧ count_calls is_push (trace o) = 0
    ∧ count_calls is_add_layer (trace o) = 0
    ∧ count_calls is_replan (trace o) = 0
    ∧ count_calls is_defer (trace o) = 0
    ∧ container (after o) = container world_without_url.
Proof.
  split; [vm_compute; reflexivity|]. split; [reflexivity|].
  split; [reflexivity|].
  apply (dependency_missing_waits PebbleReadyEvent world_without_url 0).
  - vm_compute. reflexivity.
  - reflexivity.
  - reflexivity.
Defined.

(** C10. A published but empty [url] is treated as an absent one: when the
    relation exists, the container is reachable and the requirer returns the
    empty string, the pass ends Waiting with the reason "Waiting for NRF data
    to be available", with no push, no layer, no replan and no deferral; its
    result, its calls, its status and the container are those of the same
    pass in the world where the requirer returns nothing. *)
Theorem empty_url_is_absent (event : Event) (w : World) (r : nat) :
  relations w !! "nrf" = Some r →
  pebble.connectable (container w) = true →
  nrf_url w = Some EmptyString →
  let o := _on_ausf_pebble_ready event w in
  let o' := _on_ausf_pebble_ready event (set_nrf_url None w) in
  result o = Returned ()
  ∧ unit_status (after o)
    = WaitingStatus "Waiting for NRF data to be available"
  ∧ trace o
    = [ GetRelation "nrf"; CanConnect; GetNrfUrl;
        SetStatus (WaitingStatus "Waiting for NRF data to be available") ]
  ∧ count_calls is_push (trace o) = 0
  ∧ count_calls is_add_layer (trace o) = 0
  ∧ count_calls is_replan (trace o) = 0
  ∧ count_calls is_defer (trace o) = 0
  ∧ container (after o) = container w
  ∧ result o = result o'
  ∧ trace o = trace o'
  ∧ unit_status (after o) = unit_status (after o')
  ∧ container (after o) = container (after o').
Proof.
  intros Hrel Hconn Hurl o o'. subst o o'.
  rewrite (pass_without_url event w r) by (try rewrite Hurl; done).
  rewrite (pass_without_url event (set_nrf_url None w) r) by done.
  repeat split.
Qed.

Lemma empty_url_is_absent_witness :
  relations world_empty_url !! "nrf" = Some 0
  ∧ pebble.connectable (container world_empty_url) = true
  ∧ nrf_url world_empty_url = Some EmptyString
  ∧ let o := _on_ausf_pebble_ready PebbleReadyEvent world_empty_url in
    let o' :=
      _on_ausf_pebble_ready PebbleReadyEvent
        (set_nrf_url None world_empty_url) in
    result o = Returned ()
    ∧ unit_status (after o)
      = WaitingStatus "Waiting for NRF data to be available"
    ∧ trace o
      = [ GetRelation "nrf"; CanConnect; GetNrfUrl;
          SetStatus (WaitingStatus "Waiting for NRF data to be available") ]
    ∧ count_calls is_push (trace o) = 0
    ∧ count_calls is_add_layer (trace o) = 0
    ∧ count_calls is_replan (trace o) = 0
    ∧ count_calls is_defer (trace o) = 0
    ∧ container (after o) = container world_empty_url
    ∧ result o = result o'
    ∧ trace o = trace o'
    ∧ unit_status (after o) = unit_status (after o')
    ∧ container (after o) = container (after o').
Proof.
  split; [vm_compute; reflexivity|]. split; [reflexivity|].
  split; [reflexivity|].
  apply (empty_url_is_absent PebbleReadyEvent world_empty_url 0).
  - vm_compute. reflexivity.
  - reflexivity.
  - reflexivity.
Defined.

(** ** What a pass leaves behind *)

Lemma files_after_apply (pod_ip : string) (w : World) :
  pebble.files (container (after_apply pod_ip w)) = pebble.files (container w).
Proof. reflexivity. Qed.

Lemma status_after_apply (pod_ip : string) (w : World) :
  unit_status (after_apply pod_ip w) = ActiveStatus EmptyString.
Proof. reflexivity. Qed.

Lemma plan_after_apply (pod_ip : string) (w : World) :
  pebble.plan (container (after_apply pod_ip w))
  = pebble.combine_plan (expected_layer pod_ip) (pebble.plan (container w)).
Proof. reflexivity. Qed.

Lemma running_after_apply (pod_ip : string) (w : World) :
  pebble.running (container (after_apply pod_ip w))
  = pebble.replan_services
      (pebble.combine_plan (expected_layer pod_ip) (pebble.plan (container w)))
      (pebble.running (container w)).
Proof. reflexivity. Qed.

Lemma files_after_push (w : World) :
  pebble.files (container (after_push w))
  = <[config_file_path := rendered_config (nrf_url w) (hostname_of w)]>
      (pebble.files (container w)).
Proof. reflexivity. Qed.

Lemma prepared_keeps (w : World) :
  unit_status (prepared w) = unit_status w
  ∧ pebble.plan (container (prepared w)) = pebble.plan (container w)
  ∧ pebble.running (container (prepared w)) = pebble.running (container w).
Proof. unfold prepared. destruct (config_present w); repeat split. Qed.

Lemma count_calls_app (kind : Call → bool) (s t : list Call) :
  count_calls kind (s ++ t) = count_calls kind s + count_calls kind t.
Proof. induction s as [|c s IH]; simpl; [reflexivity|]. rewrite IH. lia. Qed.

Lemma calls_before_layer_counts (w : World) :
  count_calls is_add_layer (calls_before_layer w) = 0
  ∧ count_calls is_replan (calls_before_layer w) = 0
  ∧ count_calls is_set_status (calls_before_layer w) = 0
  ∧ count_calls is_defer (calls_before_layer w) = 0
  ∧ count_calls is_push (calls_before_layer w)
    = (if config_present w then 0 else 1).
Proof.
  unfold calls_before_layer. destruct (config_present w); repeat split.
Qed.

(** ** The configuration file *)

(** C5. When the pass writes the configuration file (relation there,
    container reachable, a URL [u] resolved, no file yet), it pushes to
    [/etc/ausf/ausfcfg.conf], once, the fixed schema with [u] after
    [nrfUri: ] and the host name [<app>.<model>.svc.cluster.local] after
    [registerIPv4: ], and nothing else changed: the text is the fixed lines
    with these two values, and, when neither value holds a line break,
    reading the document back gives [u] for [nrfUri] and the host name for
    [registerIPv4]. *)
Theorem config_file_round_trip (event : Event) (w : World) (r : nat) (u : string) :
  relations w !! "nrf" = Some r →
  pebble.connectable (container w) = true →
  nrf_url w = Some u →
  u ≠ EmptyString →
  pebble.files (container w) !! config_file_path = None →
  let o := _on_ausf_pebble_ready event w in
  let host := app_name w +:+ "." +:+ model_name w +:+ ".svc.cluster.local" in
  let content :=
    schema_prefix +:+ u +:+ schema_middle +:+ host +:+ schema_suffix in
  config_file_path = "/etc/ausf/ausfcfg.conf"
  ∧ take 6 (trace o)
    = [ GetRelation "nrf"; CanConnect; GetNrfUrl; Exists config_file_path;
        GetNrfUrl; Push config_file_path content ]
  ∧ count_calls is_push (trace o) = 1
  ∧ pebble.files (container (after o)) !! config_file_path = Some content
  ∧ content = Py.join LF (schema_lines u host)
  ∧ (no_lf u = true → no_lf host = true →
     text_lines content = schema_lines u host
     ∧ config_field "nrfUri" content = Some u
     ∧ config_field "registerIPv4" content = Some host).
Proof.
  intros Hrel Hconn Hurl Hu Hfile o host content.
  assert (Ho : ∃ (rest : list Call) (w' : World),
             trace o = ([ GetRelation "nrf"; CanConnect; GetNrfUrl;
                          Exists config_file_path; GetNrfUrl;
                          Push config_file_path content ] ++ rest)%list
             ∧ count_calls is_push rest = 0
             ∧ after o = w'
             ∧ pebble.files (container w') =
               <[config_file_path := content]> (pebble.files (container w))).
  { subst o.
    rewrite (pass_after_checks event w r)
      by (try rewrite Hurl; auto using truthy_url).
    unfold calls_before_layer, prepared. rewrite config_present_false by done.
    rewrite Hurl, rendered_config_text. fold host content.
    destruct (result (_pod_ip w)) as [ip|e]; eexists _, _;
      (split; [reflexivity|]); (split; [reflexivity|]);
      (split; [reflexivity|]); cbn [after].
    - rewrite files_after_apply, files_after_push, Hurl, rendered_config_text.
      reflexivity.
    - rewrite files_after_push, Hurl, rendered_config_text. reflexivity. }
  destruct Ho as (rest & w' & Ht & Hrest & -> & Hfiles).
  split; [reflexivity|].
  split; [now rewrite Ht|].
  split; [rewrite Ht, count_calls_app, Hrest; reflexivity|].
  split; [rewrite Hfiles; apply lookup_insert_eq|].
  split; [apply schema_text_lines|].
  intros Hnu Hnh. unfold config_field, content.
  rewrite schema_text_lines.
  rewrite text_lines_join;
    [|discriminate|now apply schema_lines_no_lf].
  split; [reflexivity|]. apply schema_fields.
Qed.

Lemma config_file_round_trip_witness :
  relations world_ready !! "nrf" = Some 0
  ∧ pebble.connectable (container world_ready) = true
  ∧ nrf_url world_ready = Some "http://1.1.1.1"
  ∧ "http://1.1.1.1" ≠ EmptyString
  ∧ pebble.files (container world_ready) !! config_file_path = None
  ∧ let o := _on_ausf_pebble_ready NRFAvailableEvent world_ready in
    let content :=
      schema_prefix +:+ "http://1.1.1.1" +:+ schema_middle
      +:+ "ausf-operator.whatever.svc.cluster.local" +:+ schema_suffix in
    pebble.files (container (after o)) !! config_file_path = Some content
    ∧ config_field "nrfUri" content = Some "http://1.1.1.1"
    ∧ config_field "registerIPv4" content
      = Some "ausf-operator.whatever.svc.cluster.local".
Proof.
  split; [vm_compute; reflexivity|]. split; [reflexivity|].
  split; [reflexivity|]. split; [discriminate|].
  split; [vm_compute; reflexivity|].
  destruct (config_file_round_trip NRFAvailableEvent world_ready 0
              "http://1.1.1.1") as (_ & _ & _ & Hfile & _ & Hread).
  - vm_compute. reflexivity.
  - reflexivity.
  - reflexivity.
  - discriminate.
  - vm_compute. reflexivity.
  - destruct Hread as (_ & Hn & Hr).
    + vm_compute. reflexivity.
    + vm_compute. reflexivity.
    + split; [exact Hfile|]. split; [exact Hn|exact Hr].
Defined.

(** ** The process layer *)




Lemma environment_values (pod_ip : string) :
  expected_environment pod_ip !! "GRPC_GO_LOG_VERBOSITY_LEVEL" = Some "99"
  ∧ expected_environment pod_ip !! "GRPC_GO_LOG_SEVERITY_LEVEL" = Some "info"
  ∧ expected_environment pod_ip !! "GRPC_TRACE" = Some "all"
  ∧ expected_environment pod_ip !! "GRPC_VERBOSITY" = Some "debug"
  ∧ expected_environment pod_ip !! "POD_IP" = Some pod_ip
  ∧ expected_environment pod_ip !! "MANAGED_BY_CONFIG_POD" = Some "true".
Proof.
  unfold expected_environment.
  cbn [list_to_map foldr curry fst snd uncurry].
  repeat split; rewrite !lookup_insert; repeat case_decide; congruence.
Qed.

(** ** Applying the layer *)

(** C6, as the code has it.  Once the three checks pass, the file is there
    or has been written, and the host-metadata query yields an address, the
    pass adds, under the label [ausf] and combined with what is there, a
    layer with the one service [ausf] (command
    [/free5gc/ausf/ausf --ausfcfg /etc/ausf/ausfcfg.conf], startup enabled,
    the environment with the address as [POD_IP]), then replans, then sets
    the status to Active; afterwards the plan holds this declaration and the
    service runs with it. *)
Theorem layer_applied_when_address_resolves
    (event : Event) (w : World) (r : nat) (ip : ipaddress.IPv4Address) :
  relations w !! "nrf" = Some r →
  pebble.connectable (container w) = true →
  Py.truthy_option Py.truthy_string (nrf_url w) = true →
  result (_pod_ip w) = Returned ip →
  let o := _on_ausf_pebble_ready event w in
  let service := expected_service (ipaddress.to_string ip) in
  let layer := expected_layer (ipaddress.to_string ip) in
  result o = Returned ()
  ∧ trace o
    = (calls_before_layer w
       ++ [ AddLayer "ausf" layer true; Replan;
            SetStatus (ActiveStatus EmptyString) ])%list
  ∧ count_calls is_add_layer (trace o) = 1
  ∧ count_calls is_replan (trace o) = 1
  ∧ services layer = {[ "ausf" := service ]}
  ∧ command service = "/free5gc/ausf/ausf --ausfcfg /etc/ausf/ausfcfg.conf"
  ∧ startup service = "enabled"
  ∧ environment service = expected_environment (ipaddress.to_string ip)
  ∧ pebble.plan (container (after o)) !! "ausf" = Some service
  ∧ pebble.running (container (after o)) !! "ausf" = Some service
  ∧ unit_status (after o) = ActiveStatus EmptyString.
Proof.
  intros Hrel Hconn Hurl Hip o service layer. subst o.
  rewrite (pass_after_checks event w r) by assumption. rewrite Hip.
  cbn [result trace after].
  pose proof (calls_before_layer_counts w) as (Ha & Hr & _).
  split; [reflexivity|]. split; [reflexivity|].
  split; [rewrite count_calls_app, Ha; reflexivity|].
  split; [rewrite count_calls_app, Hr; reflexivity|].
  do 4 (split; [reflexivity|]).
  rewrite plan_after_apply, running_after_apply, status_after_apply.
  split; [apply plan_after_layer|].
  split; [|reflexivity].
  apply running_after_replan, plan_after_layer.
Qed.

Lemma layer_applied_when_address_resolves_witness :
  relations world_ready !! "nrf" = Some 0
  ∧ pebble.connectable (container world_ready) = true
  ∧ Py.truthy_option Py.truthy_string (nrf_url world_ready) = true
  ∧ result (_pod_ip world_ready) = Returned (ipaddress.MkIPv4Address 16909060)
  ∧ let o := _on_ausf_pebble_ready PebbleReadyEvent world_ready in
    let service := expected_service "1.2.3.4" in
    let layer := expected_layer "1.2.3.4" in
    result o = Returned ()
    ∧ trace o
      = (calls_before_layer world_ready
         ++ [ AddLayer "ausf" layer true; Replan;
              SetStatus (ActiveStatus EmptyString) ])%list
    ∧ count_calls is_add_layer (trace o) = 1
    ∧ count_calls is_replan (trace o) = 1
    ∧ services layer = {[ "ausf" := service ]}
    ∧ command service = "/free5gc/ausf/ausf --ausfcfg /etc/ausf/ausfcfg.conf"
    ∧ startup service = "enabled"
    ∧ environment service = expected_environment "1.2.3.4"
    ∧ pebble.plan (container (after o)) !! "ausf" = Some service
    ∧ pebble.running (container (after o)) !! "ausf" = Some service
    ∧ unit_status (after o) = ActiveStatus EmptyString.
Proof.
  split; [vm_compute; reflexivity|]. split; [reflexivity|].
  split; [reflexivity|]. split; [vm_compute; reflexivity|].
  apply (layer_applied_when_address_resolves PebbleReadyEvent world_ready 0
           (ipaddress.MkIPv4Address 16909060)).
  - vm_compute. reflexivity.
  - reflexivity.
  - reflexivity.
  - vm_compute. reflexivity.
Defined.

(** C6 as stated fails twice.  With the three checks passed and the file
    written, a failing host-metadata query leaves the pass without any layer
    added and without replan; and when the layer is added, its command line
    has the flag [--ausfcfg], not [--config]. *)
Lemma layer_not_always_applied :
  (let w := world_ready_no_address in
   let o := _on_ausf_pebble_ready PebbleReadyEvent w in
   relations w !! "nrf" = Some 0
   ∧ pebble.connectable (container w) = true
   ∧ Py.truthy_option Py.truthy_string (nrf_url w) = true
   ∧ is_Some (pebble.files (container (after o)) !! config_file_path)
   ∧ result o = Raised CalledProcessError
   ∧ count_calls is_add_layer (trace o) = 0
   ∧ count_calls is_replan (trace o) = 0)
  ∧ (let o := _on_ausf_pebble_ready PebbleReadyEvent world_ready in
     trace o
     = (calls_before_layer world_ready
        ++ [ AddLayer "ausf" (expected_layer "1.2.3.4") true; Replan;
             SetStatus (ActiveStatus EmptyString) ])%list
     ∧ services (expected_layer "1.2.3.4")
       = {[ "ausf" := expected_service "1.2.3.4" ]}
     ∧ contains " --config " (command (expected_service "1.2.3.4")) = false).
Proof.
  split.
  - cbv zeta.
    split; [vm_compute; reflexivity|]. split; [reflexivity|].
    split; [reflexivity|].
    split; [vm_compute; eexists; reflexivity|].
    repeat split; vm_compute; reflexivity.
  - cbv zeta. split; [vm_compute; reflexivity|].
    split; [reflexivity|]. vm_compute. reflexivity.
Qed.

(** ** Idempotence on the configuration file *)

(** C4, as the code has it.  When the relation exists, the container is
    reachable, a URL is resolved and the file is already at
    [/etc/ausf/ausfcfg.conf], the pass pushes nothing and leaves every file
    as it was, whatever the URL now is; and when the host-metadata query
    yields an address, it still adds the layer, replans and sets the status
    to Active. *)
Theorem config_present_not_rewritten
    (event : Event) (w : World) (r : nat) (old : string) :
  relations w !! "nrf" = Some r →
  pebble.connectable (container w) = true →
  Py.truthy_option Py.truthy_string (nrf_url w) = true →
  pebble.files (container w) !! config_file_path = Some old →
  let o := _on_ausf_pebble_ready event w in
  config_file_path = "/etc/ausf/ausfcfg.conf"
  ∧ count_calls is_push (trace o) = 0
  ∧ pebble.files (container (after o)) = pebble.files (container w)
  ∧ pebble.files (container (after o)) !! config_file_path = Some old
  ∧ (∀ ip : ipaddress.IPv4Address,
       result (_pod_ip w) = Returned ip →
       result o = Returned ()
       ∧ trace o
         = [ GetRelation "nrf"; CanConnect; GetNrfUrl;
             Exists config_file_path;
             CheckOutput unit_get_private_address;
             AddLayer "ausf" (expected_layer (ipaddress.to_string ip)) true;
             Replan; SetStatus (ActiveStatus EmptyString) ]
       ∧ unit_status (after o) = ActiveStatus EmptyString).
Proof.
  intros Hrel Hconn Hurl Hfile o. subst o.
  rewrite (pass_after_checks event w r) by assumption.
  unfold calls_before_layer, prepared.
  rewrite (config_present_true w old) by assumption.
  split; [reflexivity|].
  destruct (result (_pod_ip w)) as [ip|e]; cbn [result trace after].
  - split; [reflexivity|]. rewrite files_after_apply.
    split; [reflexivity|]. split; [assumption|].
    intros ip' [= <-]. repeat split.
  - split; [reflexivity|]. split; [reflexivity|]. split; [assumption|].
    intros ip' [=].
Qed.

Lemma config_present_not_rewritten_witness :
  relations world_configured !! "nrf" = Some 0
  ∧ pebble.connectable (container world_configured) = true
  ∧ Py.truthy_option Py.truthy_string (nrf_url world_configured) = true
  ∧ pebble.files (container world_configured) !! config_file_path
    = Some "nrfUri: http://old"
  ∧ result (_pod_ip world_configured)
    = Returned (ipaddress.MkIPv4Address 16843009)
  ∧ let o := _on_ausf_pebble_ready PebbleReadyEvent world_configured in
    count_calls is_push (trace o) = 0
    ∧ pebble.files (container (after o))
      = pebble.files (container world_configured)
    ∧ pebble.files (container (after o)) !! config_file_path
      = Some "nrfUri: http://old"
    ∧ result o = Returned ()
    ∧ trace o
      = [ GetRelation "nrf"; CanConnect; GetNrfUrl;
          Exists config_file_path;
          CheckOutput unit_get_private_address;
          AddLayer "ausf" (expected_layer "1.1.1.1") true;
          Replan; SetStatus (ActiveStatus EmptyString) ]
    ∧ unit_status (after o) = ActiveStatus EmptyString.
Proof.
  split; [vm_compute; reflexivity|]. split; [reflexivity|].
  split; [reflexivity|]. split; [vm_compute; reflexivity|].
  split; [vm_compute; reflexivity|].
  destruct (config_present_not_rewritten PebbleReadyEvent world_configured 0
              "nrfUri: http://old") as (_ & H1 & H2 & H3 & H4).
  - vm_compute. reflexivity.
  - reflexivity.
  - reflexivity.
  - vm_compute. reflexivity.
  - destruct (H4 (ipaddress.MkIPv4Address 16843009)) as (H5 & H6 & H7).
    + vm_compute. reflexivity.
    + repeat split; assumption.
Defined.

(** C4 as stated fails: with the relation, the connection, a URL and the
    file all there, a failing host-metadata query ends the pass with no
    layer added, no replan, and the status left as it was. *)
Lemma config_present_not_always_active :
  let w := world_configured_no_address (MaintenanceStatus EmptyString) in
  let o := _on_ausf_pebble_ready PebbleReadyEvent w in
  relations w !! "nrf" = Some 0
  ∧ pebble.connectable (container w) = true
  ∧ Py.truthy_option Py.truthy_string (nrf_url w) = true
  ∧ is_Some (pebble.files (container w) !! config_file_path)
  ∧ count_calls is_add_layer (trace o) = 0
  ∧ count_calls is_replan (trace o) = 0
  ∧ unit_status (after o) ≠ ActiveStatus EmptyString.
Proof.
  cbv zeta.
  split; [vm_compute; reflexivity|]. split; [reflexivity|].
  split; [reflexivity|].
  split; [vm_compute; eexists; reflexivity|].
  split; [vm_compute; reflexivity|]. split; [vm_compute; reflexivity|].
  vm_compute. discriminate.
Qed.

(** ** A failing host-metadata query *)

(** C9. When the three checks pass and the host-metadata query fails (the
    command fails, its output is not text, or the text is not an IPv4
    address), the error leaves the handler: the pass made the calls up to
    the query and no other, so no layer is added, nothing is replanned and
    no status is set; status, plan and started services are as before,
    while a configuration file pushed earlier in the pass stays pushed. *)
Theorem address_failure_aborts
    (event : Event) (w : World) (r : nat) (e : Exn) :
  relations w !! "nrf" = Some r →
  pebble.connectable (container w) = true →
  Py.truthy_option Py.truthy_string (nrf_url w) = true →
  result (_pod_ip w) = Raised e →
  let o := _on_ausf_pebble_ready event w in
  result o = Raised e
  ∧ trace o = calls_before_layer w
  ∧ count_calls is_add_layer (trace o) = 0
  ∧ count_calls is_replan (trace o) = 0
  ∧ count_calls is_set_status (trace o) = 0
  ∧ unit_status (after o) = unit_status w
  ∧ pebble.plan (container (after o)) = pebble.plan (container w)
  ∧ pebble.running (container (after o)) = pebble.running (container w)
  ∧ (pebble.files (container w) !! config_file_path = None →
     count_calls is_push (trace o) = 1
     ∧ pebble.files (container (after o)) !! config_file_path
       = Some (rendered_config (nrf_url w) (hostname_of w))).
Proof.
  intros Hrel Hconn Hurl Hip o. subst o.
  rewrite (pass_after_checks event w r) by assumption. rewrite Hip.
  cbn [result trace after].
  pose proof (calls_before_layer_counts w) as (Ha & Hr & Hs & _ & Hp).
  pose proof (prepared_keeps w) as (Hst & Hpl & Hrn).
  do 8 (split; [assumption || reflexivity|]).
  intros Hfile. rewrite Hp. unfold prepared.
  rewrite config_present_false by assumption.
  split; [reflexivity|]. rewrite files_after_push. apply lookup_insert_eq.
Qed.

Lemma address_failure_aborts_witness :
  relations world_ready_no_address !! "nrf" = Some 0
  ∧ pebble.connectable (container world_ready_no_address) = true
  ∧ Py.truthy_option Py.truthy_string (nrf_url world_ready_no_address) = true
  ∧ result (_pod_ip world_ready_no_address) = Raised CalledProcessError
  ∧ pebble.files (container world_ready_no_address) !! config_file_path = None
  ∧ let w := world_ready_no_address in
    let o := _on_ausf_pebble_ready PebbleReadyEvent w in
    result o = Raised CalledProcessError
    ∧ trace o = calls_before_layer w
    ∧ count_calls is_add_layer (trace o) = 0
    ∧ count_calls is_replan (trace o) = 0
    ∧ count_calls is_set_status (trace o) = 0
    ∧ unit_status (after o) = unit_status w
    ∧ pebble.plan (container (after o)) = pebble.plan (container w)
    ∧ pebble.running (container (after o)) = pebble.running (container w)
    ∧ count_calls is_push (trace o) = 1
    ∧ pebble.files (container (after o)) !! config_file_path
      = Some (rendered_config (nrf_url w) (hostname_of w)).
Proof.
  split; [vm_compute; reflexivity|]. split; [reflexivity|].
  split; [reflexivity|]. split; [vm_compute; reflexivity|].
  split; [vm_compute; reflexivity|].
  destruct (address_failure_aborts PebbleReadyEvent world_ready_no_address 0
              CalledProcessError)
    as (H1 & H2 & H3 & H4 & H5 & H6 & H7 & H8 & H9).
  - vm_compute. reflexivity.
  - reflexivity.
  - reflexivity.
  - vm_compute. reflexivity.
  - destruct H9 as (H9 & H10); [vm_compute; reflexivity|].
    cbv zeta. repeat split; assumption.
Defined.

(** ** The status as a function of the ambient state *)

(** The four statuses a pass can set. *)
Lemma status_for_cases (a : Ambient) :
  status_for a = BlockedStatus "Waiting for NRF relation to be created"
  ∨ status_for a = WaitingStatus "Waiting for container to be ready"
  ∨ status_for a = WaitingStatus "Waiting for NRF data to be available"
  ∨ status_for a = ActiveStatus EmptyString.
Proof.
  unfold status_for.
  destruct (relation_exists a), (container_connectable a), (url_available a);
    simpl; auto.
Qed.

(** A pass that is not cut short by the host-metadata query returns and
    leaves the status of its ambient state. *)
Lemma pass_status (event : Event) (w : World) :
  (checks_pass (ambient w) = true → address_resolves w = true) →
  result (_on_ausf_pebble_ready event w) = Returned ()
  ∧ unit_status (after (_on_ausf_pebble_ready event w))
    = status_for (ambient w).
Proof.
  unfold checks_pass, status_for, ambient, address_resolves.
  cbn [relation_exists container_connectable url_available].
  destruct (relations w !! "nrf") as [r|] eqn:Hrel.
  - rewrite bool_decide_eq_true_2 by (now exists r).
    destruct (pebble.connectable (container w)) eqn:Hconn.
    + destruct (Py.truthy_option Py.truthy_string (nrf_url w)) eqn:Hurl.
      * intros Hip. rewrite (pass_after_checks event w r) by assumption.
        destruct (result (_pod_ip w)) as [ip|e]; [split; reflexivity|].
        specialize (Hip eq_refl). discriminate.
      * intros _. rewrite (pass_without_url event w r) by assumption.
        split; reflexivity.
    + intros _. rewrite (pass_not_connected event w r) by assumption.
      split; reflexivity.
  - rewrite bool_decide_eq_false_2 by (intros [x Hx]; discriminate).
    intros _. rewrite pass_without_relation by assumption.
    split; reflexivity.
Qed.

(** C8, as the code has it.  Take two passes that observe the same ambient
    state (relation, connectivity, URL availability, file), whatever the
    events, the statuses left by earlier passes and the rest of the two
    worlds; if, where the three checks pass, the host-metadata query yields
    an address in both, then both passes return, both leave the same status,
    which is the one computed from the ambient state alone and is one of
    Blocked (relation), Waiting (container), Waiting (dependency data),
    Active. *)
Theorem status_function_of_ambient_state
    (event1 event2 : Event) (w1 w2 : World) :
  ambient w1 = ambient w2 →
  (checks_pass (ambient w1) = true →
   address_resolves w1 = true ∧ address_resolves w2 = true) →
  let o1 := _on_ausf_pebble_ready event1 w1 in
  let o2 := _on_ausf_pebble_ready event2 w2 in
  result o1 = Returned ()
  ∧ result o2 = Returned ()
  ∧ unit_status (after o1) = unit_status (after o2)
  ∧ unit_status (after o1) = status_for (ambient w1)
  ∧ (unit_status (after o1)
     = BlockedStatus "Waiting for NRF relation to be created"
     ∨ unit_status (after o1)
       = WaitingStatus "Waiting for container to be ready"
     ∨ unit_status (after o1)
       = WaitingStatus "Waiting for NRF data to be available"
     ∨ unit_status (after o1) = ActiveStatus EmptyString).
Proof.
  intros Hsame Hip o1 o2. subst o1 o2.
  destruct (pass_status event1 w1) as (Hr1 & Hs1); [intros H; now apply Hip|].
  destruct (pass_status event2 w2) as (Hr2 & Hs2).
  { rewrite <- Hsame. intros H. now apply Hip. }
  rewrite Hs1, Hs2, Hsame.
  repeat (split; [assumption || reflexivity|]).
  apply status_for_cases.
Qed.

Lemma status_function_of_ambient_state_witness :
  ambient world_configured = ambient world_configured_later
  ∧ address_resolves world_configured = true
  ∧ address_resolves world_configured_later = true
  ∧ let o1 := _on_ausf_pebble_ready PebbleReadyEvent world_configured in
    let o2 := _on_ausf_pebble_ready NRFAvailableEvent world_configured_later in
    result o1 = Returned ()
    ∧ result o2 = Returned ()
    ∧ unit_status (after o1) = unit_status (after o2)
    ∧ unit_status (after o1) = status_for (ambient world_configured)
    ∧ (unit_status (after o1)
       = BlockedStatus "Waiting for NRF relation to be created"
       ∨ unit_status (after o1)
         = WaitingStatus "Waiting for container to be ready"
       ∨ unit_status (after o1)
         = WaitingStatus "Waiting for NRF data to be available"
       ∨ unit_status (after o1) = ActiveStatus EmptyString).
Proof.
  split; [vm_compute; reflexivity|]. split; [vm_compute; reflexivity|].
  split; [vm_compute; reflexivity|].
  apply (status_function_of_ambient_state PebbleReadyEvent NRFAvailableEvent
           world_configured world_configured_later).
  - vm_compute. reflexivity.
  - intros _. split; vm_compute; reflexivity.
Defined.

(** C8 as stated fails: two passes that observe the same ambient state, in
    which the host-metadata query fails, leave different statuses, each the
    one an earlier pass left, and neither is the status of the ambient
    state. *)
Lemma status_carried_over_on_abort :
  let w1 := world_configured_no_address (MaintenanceStatus EmptyString) in
  let w2 :=
    world_configured_no_address
      (WaitingStatus "Waiting for NRF data to be available") in
  let o1 := _on_ausf_pebble_ready PebbleReadyEvent w1 in
  let o2 := _on_ausf_pebble_ready PebbleReadyEvent w2 in
  ambient w1 = ambient w2
  ∧ ambient w1 = MkAmbient true true true true
  ∧ unit_status (after o1) = MaintenanceStatus EmptyString
  ∧ unit_status (after o2)
    = WaitingStatus "Waiting for NRF data to be available"
  ∧ unit_status (after o1) ≠ unit_status (after o2)
  ∧ unit_status (after o1)
    ≠ BlockedStatus "Waiting for NRF relation to be created"
  ∧ unit_status (after o1) ≠ WaitingStatus "Waiting for container to be ready"
  ∧ unit_status (after o1)
    ≠ WaitingStatus "Waiting for NRF data to be available"
  ∧ unit_status (after o1) ≠ ActiveStatus EmptyString.
Proof.
  cbv zeta.
  do 4 (split; [vm_compute; reflexivity|]).
  repeat split; vm_compute; discriminate.
Qed.

(** ** The scenarios of the unit tests *)

(** [test_given_nrf_is_available_when_databases_are_created_then_config_file_is_written] *)
Example test_config_file_is_written :
  let o := _on_ausf_pebble_ready NRFAvailableEvent world_ready in
  count_calls is_push (trace o) = 1
  ∧ trace o !! 5
    = Some (Push "/etc/ausf/ausfcfg.conf"
              (test_expected_source "http://1.1.1.1"))
  ∧ pebble.files (container (after o)) !! "/etc/ausf/ausfcfg.conf"
    = Some (test_expected_source "http://1.1.1.1").
Proof. cbv zeta. repeat split; vm_compute; reflexivity. Qed.

(** [test_given_all_relations_are_ready_when_pebble_ready_then_pebble_plan_is_applied]
    and [..._then_status_is_active] *)
Example test_pebble_plan_is_applied :
  let o := _on_ausf_pebble_ready PebbleReadyEvent world_configured in
  pebble.plan (container (after o)) = {[ "ausf" := expected_service "1.1.1.1" ]}
  ∧ pebble.running (container (after o))
    = {[ "ausf" := expected_service "1.1.1.1" ]}
  ∧ unit_status (after o) = ActiveStatus EmptyString.
Proof. cbv zeta. repeat split; vm_compute; reflexivity. Qed.

(** The address is read back as the text the query printed, white space
    around it dropped. *)
Example pod_ip_of_output :
  ipaddress.to_string
    <$> (Py.decode (" 10.1.20.255" +:+ LF)
         ≫= λ text, ipaddress.of_str (Py.strip text))
  = Some "10.1.20.255".
Proof. vm_compute. reflexivity. Qed.

Example pod_ip_refuses :
  (Py.decode "10.1.20" ≫= ipaddress.of_str) = None
  ∧ (Py.decode "10.1.20.256" ≫= ipaddress.of_str) = None
  ∧ (Py.decode "10.01.20.2" ≫= ipaddress.of_str) = None
  ∧ (Py.decode "10.1.20.2/24" ≫= ipaddress.of_str) = None
  ∧ (Py.decode EmptyString ≫= ipaddress.of_str) = None.
Proof. repeat split; vm_compute; reflexivity. Qed.

(** * Further properties of the handler *)

(** ** Every pass is one of five *)

Lemma pass_case_of (event : Event) (w : World) :
  pass_case event w (_on_ausf_pebble_ready event w).
Proof.
  destruct (relations w !! "nrf") as [r|] eqn:Hrel.
  - destruct (pebble.connectable (container w)) eqn:Hconn.
    + destruct (Py.truthy_option Py.truthy_string (nrf_url w)) eqn:Hurl.
      * rewrite (pass_after_checks event w r) by assumption.
        destruct (result (_pod_ip w)) as [ip|e] eqn:Hip.
        -- now apply (pass_applied event w r ip).
        -- now apply (pass_aborted event w r e).
      * rewrite (pass_without_url event w r) by assumption.
        now apply (pass_waiting event w r).
    + rewrite (pass_not_connected event w r) by assumption.
      now apply (pass_deferred event w r).
  - rewrite pass_without_relation by assumption. now apply pass_blocked.
Qed.

Lemma ambient_relation (w : World) (r : nat) :
  relations w !! "nrf" = Some r → relation_exists (ambient w) = true.
Proof. intros H. simpl. apply bool_decide_eq_true. now exists r. Qed.

Lemma ambient_no_relation (w : World) :
  relations w !! "nrf" = None → relation_exists (ambient w) = false.
Proof.
  intros H. simpl. apply bool_decide_eq_false. rewrite H. intros [x Hx].
  discriminate.
Qed.

Lemma checks_pass_iff (w : World) :
  checks_pass (ambient w) = true ↔
  is_Some (relations w !! "nrf")
  ∧ pebble.connectable (container w) = true
  ∧ Py.truthy_option Py.truthy_string (nrf_url w) = true.
Proof.
  unfold checks_pass, ambient.
  cbn [relation_exists container_connectable url_available].
  rewrite !andb_true_iff, bool_decide_eq_true. tauto.
Qed.

(** ** When a pass raises *)

(** X6. A pass raises exactly when the three checks pass and the
    host-metadata query raises, and then with the error of the query; in
    every other world it returns. *)
Theorem pass_raises_iff (event : Event) (w : World) (e : Exn) :
  result (_on_ausf_pebble_ready event w) = Raised e
  ↔ checks_pass (ambient w) = true ∧ result (_pod_ip w) = Raised e.
Proof.
  rewrite checks_pass_iff.
  destruct (pass_case_of event w) as [Hrel|r Hrel Hc|r Hrel Hc Hu
                                      |r ip Hrel Hc Hu Hip|r e' Hrel Hc Hu Hip];
    cbn [result]; split; try discriminate.
  - intros (((x & Hx) & _ & _) & _). congruence.
  - intros ((_ & Hc' & _) & _). congruence.
  - intros ((_ & _ & Hu') & _). congruence.
  - intros (_ & Hip'). congruence.
  - intros [= <-]. repeat split; try assumption. now exists r.
  - intros (_ & Hip'). congruence.
Qed.

(** ** What a pass leaves alone *)

Lemma prepared_inputs (w : World) :
  app_name (prepared w) = app_name w
  ∧ model_name (prepared w) = model_name w
  ∧ relations (prepared w) = relations w
  ∧ nrf_url (prepared w) = nrf_url w
  ∧ subprocess (prepared w) = subprocess w
  ∧ pebble.connectable (container (prepared w))
    = pebble.connectable (container w).
Proof. unfold prepared. destruct (config_present w); repeat split. Qed.

Lemma prepared_files (w : World) (p : string) :
  p ≠ config_file_path ∨ is_Some (pebble.files (container w) !! p) →
  pebble.files (container (prepared w)) !! p
  = pebble.files (container w) !! p.
Proof.
  intros Hp. unfold prepared.
  destruct (config_present w) eqn:Hc; [reflexivity|].
  rewrite files_after_push.
  destruct (decide (p = config_file_path)) as [->|Hne].
  - destruct Hp as [Hp|Hp]; [congruence|].
    unfold config_present in Hc. apply bool_decide_eq_false in Hc. tauto.
  - now rewrite lookup_insert_ne.
Qed.

Lemma prepared_has_config (w : World) :
  is_Some (pebble.files (container (prepared w)) !! config_file_path).
Proof.
  unfold prepared. destruct (config_present w) eqn:Hc.
  - unfold config_present in Hc. now apply bool_decide_eq_true in Hc.
  - rewrite files_after_push, lookup_insert_eq. now eexists.
Qed.

Lemma files_of_pass (event : Event) (w : World) (p : string) :
  p ≠ config_file_path ∨ is_Some (pebble.files (container w) !! p) →
  pebble.files (container (after (_on_ausf_pebble_ready event w))) !! p
  = pebble.files (container w) !! p.
Proof.
  intros Hp.
  destruct (pass_case_of event w); cbn [after]; try reflexivity.
  - rewrite files_after_apply. now apply prepared_files.
  - now apply prepared_files.
Qed.

(** X4. The only file a pass can change is the configuration file, and only
    when it is not there: any other path, and the configuration file once it
    exists, reads the same after the pass as before, in every world and
    whatever the outcome. *)
Theorem pass_keeps_files (event : Event) (w : World) (p : string) :
  p ≠ config_file_path ∨ is_Some (pebble.files (container w) !! p) →
  pebble.files (container (after (_on_ausf_pebble_ready event w))) !! p
  = pebble.files (container w) !! p.
Proof.
  intros Hp.
  destruct (pass_case_of event w); cbn [after]; try reflexivity.
  - rewrite files_after_apply. now apply prepared_files.
  - now apply prepared_files.
Qed.

Lemma pass_keeps_files_witness :
  is_Some (pebble.files (container world_configured) !! config_file_path)
  ∧ pebble.files
      (container (after (_on_ausf_pebble_ready PebbleReadyEvent world_configured)))
      !! config_file_path
    = pebble.files (container world_configured) !! config_file_path.
Proof.
  assert (H : is_Some (pebble.files (container world_configured)
                         !! config_file_path)).
  { vm_compute. eexists. reflexivity. }
  split; [exact H|].
  apply (pass_keeps_files PebbleReadyEvent world_configured config_file_path).
  right. exact H.
Defined.

(** X5. A pass never changes what it reads (application and model names,
    relations, the URL of the requirer, the outputs of commands, whether the
    container answers), and in the plan it touches no service other than
    [ausf]. *)
Theorem pass_touches_only_ausf (event : Event) (w : World) :
  let o := _on_ausf_pebble_ready event w in
  app_name (after o) = app_name w
  ∧ model_name (after o) = model_name w
  ∧ relations (after o) = relations w
  ∧ nrf_url (after o) = nrf_url w
  ∧ subprocess (after o) = subprocess w
  ∧ pebble.connectable (container (after o))
    = pebble.connectable (container w)
  ∧ ∀ name : string,
      name ≠ "ausf" →
      pebble.plan (container (after o)) !! name
      = pebble.plan (container w) !! name.
Proof.
  cbv zeta.
  pose proof (prepared_inputs w) as (H1 & H2 & H3 & H4 & H5 & H6).
  pose proof (prepared_keeps w) as (_ & Hplan & _).
  destruct (pass_case_of event w); cbn [after];
    try (repeat split; reflexivity);
    (do 6 (split; [assumption|])); intros name Hname.
  - rewrite plan_after_apply. unfold pebble.combine_plan, expected_layer.
    cbn [services]. rewrite lookup_union_with.
    rewrite lookup_singleton_ne by congruence. rewrite Hplan.
    destruct (pebble.plan (container w) !! name); reflexivity.
  - now rewrite Hplan.
Qed.

(** ** The calls of a pass, in every world *)

Lemma count_before_layer (w : World) :
  count_calls is_push (calls_before_layer w)
  = (if config_present w then 0 else 1)
  ∧ count_calls is_defer (calls_before_layer w) = 0
  ∧ count_calls is_add_layer (calls_before_layer w) = 0
  ∧ count_calls is_replan (calls_before_layer w) = 0
  ∧ count_calls sets_active (calls_before_layer w) = 0.
Proof.
  unfold calls_before_layer. destruct (config_present w); repeat split.
Qed.

Lemma push_before_layer (w : World) (p s : string) :
  In (Push p s) (calls_before_layer w) →
  p = config_file_path ∧ s = rendered_config (nrf_url w) (hostname_of w).
Proof.
  unfold calls_before_layer. destruct (config_present w); simpl;
    intros H; repeat (destruct H as [H|H]; try discriminate H);
    try contradiction.
  injection H as <- <-. split; reflexivity.
Qed.

(** X7. A pass pushes a file exactly when the three checks pass and the
    configuration file is not there, whether or not the host-metadata query
    succeeds afterwards; it pushes at most once, and what it pushes is the
    document rendered for the current URL and host name, to
    [/etc/ausf/ausfcfg.conf]. *)
Theorem pass_pushes_iff (event : Event) (w : World) :
  let o := _on_ausf_pebble_ready event w in
  count_calls is_push (trace o)
  = (if checks_pass (ambient w) && negb (config_written (ambient w))
     then 1 else 0)
  ∧ ∀ p s : string,
      In (Push p s) (trace o) →
      p = "/etc/ausf/ausfcfg.conf"
      ∧ s = rendered_config (nrf_url w) (hostname_of w).
Proof.
  cbv zeta. unfold checks_pass.
  change (config_written (ambient w)) with (config_present w).
  change (container_connectable (ambient w))
    with (pebble.connectable (container w)).
  change (url_available (ambient w))
    with (Py.truthy_option Py.truthy_string (nrf_url w)).
  pose proof (count_before_layer w) as (Hp & _).
  destruct (pass_case_of event w) as [Hrel|r Hrel Hc|r Hrel Hc Hu
                                      |r ip Hrel Hc Hu Hip|r e' Hrel Hc Hu Hip];
    cbn [trace].
  - rewrite (ambient_no_relation w Hrel). split; [reflexivity|].
    simpl. intros p s H.
    repeat (destruct H as [H|H]; try discriminate H). contradiction.
  - rewrite Hc, andb_false_r. split; [reflexivity|].
    simpl. intros p s H.
    repeat (destruct H as [H|H]; try discriminate H). contradiction.
  - rewrite Hu, andb_false_r. split; [reflexivity|].
    simpl. intros p s H.
    repeat (destruct H as [H|H]; try discriminate H). contradiction.
  - rewrite (ambient_relation w r Hrel), Hc, Hu. cbn [andb].
    rewrite count_calls_app, Hp. split.
    + destruct (config_present w); reflexivity.
    + intros p s [H|H]%in_app_or; [now apply push_before_layer|].
      simpl in H.
      repeat (destruct H as [H|H]; try discriminate H). contradiction.
  - rewrite (ambient_relation w r Hrel), Hc, Hu. cbn [andb].
    rewrite Hp. split.
    + destruct (config_present w); reflexivity.
    + intros p s H. now apply push_before_layer.
Qed.

(** X8. A pass defers its event exactly when the relation exists and the
    container cannot be reached: once then, never otherwise, and never any
    event but the one that triggered it. *)
Theorem pass_defers_iff (event : Event) (w : World) :
  let o := _on_ausf_pebble_ready event w in
  count_calls is_defer (trace o)
  = (if relation_exists (ambient w) && negb (container_connectable (ambient w))
     then 1 else 0)
  ∧ ∀ e : Event, In (Defer e) (trace o) → e = event.
Proof.
  cbv zeta.
  change (container_connectable (ambient w))
    with (pebble.connectable (container w)).
  pose proof (count_before_layer w) as (_ & Hd & _).
  assert (Hin : ∀ e, ¬ In (Defer e) (calls_before_layer w)).
  { intros e. unfold calls_before_layer.
    destruct (config_present w); simpl; intros H;
      repeat (destruct H as [H|H]; try discriminate H); contradiction. }
  destruct (pass_case_of event w) as [Hrel|r Hrel Hc|r Hrel Hc Hu
                                      |r ip Hrel Hc Hu Hip|r e' Hrel Hc Hu Hip];
    cbn [trace].
  - rewrite (ambient_no_relation w Hrel). split; [reflexivity|].
    simpl. intros e H.
    repeat (destruct H as [H|H]; try discriminate H). contradiction.
  - rewrite (ambient_relation w r Hrel), Hc. split; [reflexivity|].
    simpl. intros e H.
    repeat (destruct H as [H|H]; try discriminate H); [|contradiction].
    now injection H.
  - rewrite Hc, andb_false_r. split; [reflexivity|].
    simpl. intros e H.
    repeat (destruct H as [H|H]; try discriminate H). contradiction.
  - rewrite Hc, andb_false_r, count_calls_app, Hd. split; [reflexivity|].
    intros e [H|H]%in_app_or; [now apply Hin in H|].
    simpl in H.
    repeat (destruct H as [H|H]; try discriminate H). contradiction.
  - rewrite Hc, andb_false_r, Hd. split; [reflexivity|].
    intros e H. now apply Hin in H.
Qed.

Lemma address_resolves_returned (w : World) (ip : ipaddress.IPv4Address) :
  result (_pod_ip w) = Returned ip → address_resolves w = true.
Proof. unfold address_resolves. now intros ->. Qed.

Lemma address_resolves_raised (w : World) (e : Exn) :
  result (_pod_ip w) = Raised e → address_resolves w = false.
Proof. unfold address_resolves. now intros ->. Qed.

(** X9. Adding the layer, replanning and setting the status to Active go
    together: a pass does each of them once when the three checks pass and
    the host-metadata query yields an address, and none of them in any other
    world. *)
Theorem layer_replan_active_together (event : Event) (w : World) :
  let o := _on_ausf_pebble_ready event w in
  let n := if checks_pass (ambient w) && address_resolves w then 1 else 0 in
  count_calls is_add_layer (trace o) = n
  ∧ count_calls is_replan (trace o) = n
  ∧ count_calls sets_active (trace o) = n.
Proof.
  cbv zeta. unfold checks_pass.
  change (container_connectable (ambient w))
    with (pebble.connectable (container w)).
  change (url_available (ambient w))
    with (Py.truthy_option Py.truthy_string (nrf_url w)).
  pose proof (count_before_layer w) as (_ & _ & Ha & Hr & Hs).
  destruct (pass_case_of event w) as [Hrel|r Hrel Hc|r Hrel Hc Hu
                                      |r ip Hrel Hc Hu Hip|r e' Hrel Hc Hu Hip];
    cbn [trace].
  - rewrite (ambient_no_relation w Hrel). repeat split.
  - rewrite Hc, andb_false_r. repeat split.
  - rewrite Hu, andb_false_r. repeat split.
  - rewrite (ambient_relation w r Hrel), Hc, Hu,
      (address_resolves_returned w ip Hip).
    rewrite !count_calls_app, Ha, Hr, Hs. repeat split.
  - rewrite (address_resolves_raised w e' Hip), andb_false_r, Ha, Hr, Hs.
    repeat split.
Qed.

(** X10. Active is never reported for a unit that is not configured: if a
    pass sets the status to Active, then it returned, the configuration file
    is in the container, the host-metadata query gave an address, and the
    plan holds, and the container runs, the service [ausf] declared for
    that address. *)
Theorem active_only_when_configured
    (event : Event) (w : World) (message : string) :
  In (SetStatus (ActiveStatus message)) (trace (_on_ausf_pebble_ready event w)) →
  let o := _on_ausf_pebble_ready event w in
  result o = Returned ()
  ∧ unit_status (after o) = ActiveStatus EmptyString
  ∧ is_Some (pebble.files (container (after o)) !! config_file_path)
  ∧ ∃ ip : ipaddress.IPv4Address,
      result (_pod_ip w) = Returned ip
      ∧ pebble.plan (container (after o)) !! "ausf"
        = Some (expected_service (ipaddress.to_string ip))
      ∧ pebble.running (container (after o)) !! "ausf"
        = Some (expected_service (ipaddress.to_string ip)).
Proof.
  cbv zeta.
  assert (Hin : ¬ In (SetStatus (ActiveStatus message)) (calls_before_layer w)).
  { unfold calls_before_layer.
    destruct (config_present w); simpl; intros H;
      repeat (destruct H as [H|H]; try discriminate H); contradiction. }
  destruct (pass_case_of event w) as [Hrel|r Hrel Hc|r Hrel Hc Hu
                                      |r ip Hrel Hc Hu Hip|r e' Hrel Hc Hu Hip];
    cbn [trace result after]; intros H;
    try (simpl in H;
         repeat (destruct H as [H|H]; try discriminate H); contradiction).
  - split; [reflexivity|]. split; [reflexivity|].
    split; [rewrite files_after_apply; apply prepared_has_config|].
    exists ip. split; [assumption|].
    rewrite plan_after_apply, running_after_apply.
    split; [apply plan_after_layer|].
    apply running_after_replan, plan_after_layer.
  - now apply Hin in H.
Qed.

Lemma active_only_when_configured_witness :
  In (SetStatus (ActiveStatus EmptyString))
    (trace (_on_ausf_pebble_ready PebbleReadyEvent world_ready))
  ∧ let o := _on_ausf_pebble_ready PebbleReadyEvent world_ready in
    result o = Returned ()
    ∧ unit_status (after o) = ActiveStatus EmptyString
    ∧ is_Some (pebble.files (container (after o)) !! config_file_path)
    ∧ ∃ ip : ipaddress.IPv4Address,
        result (_pod_ip world_ready) = Returned ip
        ∧ pebble.plan (container (after o)) !! "ausf"
          = Some (expected_service (ipaddress.to_string ip))
        ∧ pebble.running (container (after o)) !! "ausf"
          = Some (expected_service (ipaddress.to_string ip)).
Proof.
  assert (H : In (SetStatus (ActiveStatus EmptyString))
                (trace (_on_ausf_pebble_ready PebbleReadyEvent world_ready))).
  { vm_compute. do 9 right. left. reflexivity. }
  split; [exact H|].
  exact (active_only_when_configured PebbleReadyEvent world_ready EmptyString H).
Defined.

(** ** One event or another *)

Lemma without_defer_before_layer (w : World) :
  without_defer (calls_before_layer w) = calls_before_layer w.
Proof. unfold calls_before_layer. destruct (config_present w); reflexivity. Qed.

(** X11. The event that triggers a pass matters only to the deferral: for
    any two events, the passes in the same world have the same result and
    leave the same world, and their calls are the same up to the event
    named in the deferral. *)
Theorem pass_same_for_every_event (event1 event2 : Event) (w : World) :
  let o1 := _on_ausf_pebble_ready event1 w in
  let o2 := _on_ausf_pebble_ready event2 w in
  result o1 = result o2
  ∧ after o1 = after o2
  ∧ without_defer (trace o1) = without_defer (trace o2)
  ∧ count_calls is_defer (trace o1) = count_calls is_defer (trace o2).
Proof.
  cbv zeta.
  destruct (pass_case_of event1 w) as [Hrel|r Hrel Hc|r Hrel Hc Hu
                                       |r ip Hrel Hc Hu Hip|r e' Hrel Hc Hu Hip].
  - rewrite (pass_without_relation event2 w Hrel). repeat split.
  - rewrite (pass_not_connected event2 w r Hrel Hc). repeat split.
  - rewrite (pass_without_url event2 w r Hrel Hc Hu). repeat split.
  - rewrite (pass_after_checks event2 w r Hrel Hc Hu), Hip. repeat split.
  - rewrite (pass_after_checks event2 w r Hrel Hc Hu), Hip. repeat split.
Qed.

(** ** Writing the file, then looking for it *)

(** X12. [_write_config_file] followed by [_config_file_is_written], in
    every world and for every URL.  When the container answers, the check
    that follows the write answers true and the file holds the document
    rendered for that URL and the host name of the unit, whatever was at
    the path before, with no other path changed.  When the container does
    not answer, the push raises [ConnectionError]: nothing is written, the
    world is as it was, and the check is never made. *)
Theorem written_config_is_found (u : option string) (w : World) :
  let o := (_write_config_file u;; _config_file_is_written) w in
  if pebble.connectable (container w)
  then
    result o = Returned true
    ∧ trace o
      = [ Push "/etc/ausf/ausfcfg.conf" (rendered_config u (hostname_of w));
          Exists "/etc/ausf/ausfcfg.conf" ]
    ∧ pebble.files (container (after o)) !! "/etc/ausf/ausfcfg.conf"
      = Some (rendered_config u (hostname_of w))
    ∧ ∀ p : string,
        p ≠ "/etc/ausf/ausfcfg.conf" →
        pebble.files (container (after o)) !! p
        = pebble.files (container w) !! p
  else
    result o = Raised ConnectionError
    ∧ trace o
      = [ Push "/etc/ausf/ausfcfg.conf" (rendered_config u (hostname_of w)) ]
    ∧ after o = w.
Proof.
  cbv zeta. unfold rendered_config, hostname_of.
  open_world w.
  destruct conn;
    cbv [ _write_config_file _config_file_is_written _ausf_hostname push
          exists_ when_connected
          query effect attribute mbind mret M_bind M_ret negb app
          app_name model_name container pebble.files pebble.connectable
          set_container pebble.set_files ];
    fold config_file_path.
  - rewrite bool_decide_eq_true_2
      by (rewrite lookup_insert_eq; now eexists).
    cbn [result trace after container pebble.files].
    split; [reflexivity|]. split; [reflexivity|].
    split; [apply lookup_insert_eq|].
    intros p Hp. now rewrite lookup_insert_ne.
  - repeat split.
Qed.

(** ** Pass after pass *)

Lemma result_pod_ip_same (w w' : World) :
  subprocess w' = subprocess w → result (_pod_ip w') = result (_pod_ip w).
Proof. intros H. now rewrite (pod_ip_outcome w w' H). Qed.

Lemma combine_plan_twice (pod_ip : string) (p : gmap string Service) :
  pebble.combine_plan (expected_layer pod_ip)
    (pebble.combine_plan (expected_layer pod_ip) p)
  = pebble.combine_plan (expected_layer pod_ip) p.
Proof.
  apply map_eq. intros name.
  destruct (decide (name = "ausf")) as [->|Hne].
  - now rewrite !plan_after_layer.
  - unfold pebble.combine_plan, expected_layer. cbn [services].
    rewrite !lookup_union_with, lookup_singleton_ne by congruence.
    destruct (p !! name); reflexivity.
Qed.

Lemma replan_twice (p r : gmap string Service) :
  pebble.replan_services p (pebble.replan_services p r)
  = pebble.replan_services p r.
Proof.
  apply map_eq. intros name. unfold pebble.replan_services.
  rewrite !lookup_merge.
  destruct (p !! name) as [s|], (r !! name) as [s'|]; simpl;
    try reflexivity.
  destruct (pebble.is_enabled s); reflexivity.
Qed.

Lemma after_apply_twice (pod_ip : string) (w : World) :
  after_apply pod_ip (after_apply pod_ip w) = after_apply pod_ip w.
Proof.
  unfold after_apply at 1.
  rewrite plan_after_apply, running_after_apply, combine_plan_twice,
    replan_twice.
  reflexivity.
Qed.

Lemma config_present_is_Some (w : World) :
  is_Some (pebble.files (container w) !! config_file_path) →
  config_present w = true.
Proof. intros [old H]. now apply (config_present_true w old). Qed.

Lemma prepared_when_present (w : World) :
  config_present w = true → prepared w = w.
Proof. unfold prepared. now intros ->. Qed.

Lemma no_push_when_present (event : Event) (w : World) :
  config_present w = true →
  count_calls is_push (trace (_on_ausf_pebble_ready event w)) = 0.
Proof.
  intros Hc. pose proof (count_before_layer w) as (Hp & _).
  rewrite Hc in Hp.
  destruct (pass_case_of event w); cbn [trace]; try reflexivity.
  - now rewrite count_calls_app, Hp.
  - assumption.
Qed.

(** X1. A pass repeated leaves the world alone, but not the event queue.
    Run again from the world a pass left, with any event, the handler has
    the same result, leaves that world exactly as it is (files, plan,
    started services, status) and pushes no file.  It defers as often as
    the first pass did: when the relation exists and the container cannot
    be reached it defers once more, and the event it defers is its own;
    otherwise it defers nothing. *)
Theorem second_pass_keeps_world (event1 event2 : Event) (w : World) :
  let o1 := _on_ausf_pebble_ready event1 w in
  let o2 := _on_ausf_pebble_ready event2 (after o1) in
  result o2 = result o1
  ∧ after o2 = after o1
  ∧ count_calls is_push (trace o2) = 0
  ∧ count_calls is_defer (trace o2) = count_calls is_defer (trace o1)
  ∧ count_calls is_defer (trace o2)
    = (if relation_exists (ambient w)
          && negb (container_connectable (ambient w))
       then 1 else 0)
  ∧ ∀ e : Event, In (Defer e) (trace o2) → e = event2.
Proof.
  cbv zeta.
  change (container_connectable (ambient w))
    with (pebble.connectable (container w)).
  pose proof (prepared_inputs w) as (_ & _ & Hr & Hu' & Hs & Hc').
  pose proof (count_before_layer w) as (_ & Hd & _).
  assert (Hin : ∀ (w' : World) (e : Event),
             ¬ In (Defer e) (calls_before_layer w')).
  { intros w' e. unfold calls_before_layer.
    destruct (config_present w'); simpl; intros H;
      repeat (destruct H as [H|H]; try discriminate H); contradiction. }
  destruct (pass_case_of event1 w) as [Hrel|r Hrel Hc|r Hrel Hc Hu
                                       |r ip Hrel Hc Hu Hip|r e' Hrel Hc Hu Hip];
    cbn [after result trace].
  - rewrite pass_without_relation by exact Hrel.
    rewrite (ambient_no_relation w Hrel). cbn [result after trace andb].
    do 5 (split; [reflexivity|]).
    simpl. intros e H.
    repeat (destruct H as [H|H]; try discriminate H). contradiction.
  - rewrite (pass_not_connected event2 _ r) by assumption.
    rewrite (ambient_relation w r Hrel), Hc. cbn [result after trace andb negb].
    do 5 (split; [reflexivity|]).
    simpl. intros e H.
    repeat (destruct H as [H|H]; try discriminate H); [|contradiction].
    now injection H.
  - rewrite (pass_without_url event2 _ r) by assumption.
    rewrite Hc, andb_false_r. cbn [result after trace].
    do 5 (split; [reflexivity|]).
    simpl. intros e H.
    repeat (destruct H as [H|H]; try discriminate H). contradiction.
  - set (w1 := after_apply (ipaddress.to_string ip) (prepared w)).
    assert (Hpresent : config_present w1 = true).
    { apply config_present_is_Some. unfold w1.
      rewrite files_after_apply. apply prepared_has_config. }
    rewrite (pass_after_checks event2 w1 r);
      [|unfold w1; cbn; congruence..].
    rewrite (result_pod_ip_same w w1), Hip by (unfold w1; cbn; congruence).
    cbn [result after trace].
    rewrite (prepared_when_present w1 Hpresent).
    split; [reflexivity|]. split; [apply after_apply_twice|].
    pose proof (count_before_layer w1) as (Hp & Hd1 & _).
    rewrite !count_calls_app, Hp, Hd, Hd1, Hpresent, Hc, andb_false_r.
    do 3 (split; [reflexivity|]).
    intros e [H|H]%in_app_or; [now apply Hin in H|].
    simpl in H.
    repeat (destruct H as [H|H]; try discriminate H). contradiction.
  - set (w1 := prepared w).
    assert (Hpresent : config_present w1 = true).
    { apply config_present_is_Some, prepared_has_config. }
    rewrite (pass_after_checks event2 w1 r);
      [|unfold w1; congruence..].
    rewrite (result_pod_ip_same w w1), Hip by (unfold w1; congruence).
    cbn [result after trace].
    rewrite (prepared_when_present w1 Hpresent).
    split; [reflexivity|]. split; [reflexivity|].
    pose proof (count_before_layer w1) as (Hp & Hd1 & _).
    rewrite Hp, Hd, Hd1, Hpresent, Hc, andb_false_r.
    do 3 (split; [reflexivity|]).
    intros e H. now apply Hin in H.
Qed.

Lemma prepared_set_subprocess (sub : list string → option Py.bytes) (w : World) :
  prepared (set_subprocess sub w) = set_subprocess sub (prepared w).
Proof.
  unfold prepared.
  change (config_present (set_subprocess sub w)) with (config_present w).
  destruct (config_present w); reflexivity.
Qed.

(** X2. The file is written once and never refreshed: after a pass that
    wrote the configuration file for the URL [u1], a later pass, whatever
    the requirer returns by then, pushes nothing, and the file still holds
    the document rendered for [u1]. *)
Theorem config_kept_when_url_changes
    (event1 event2 : Event) (w : World) (r : nat) (u1 : string)
    (later : option string) :
  relations w !! "nrf" = Some r →
  pebble.connectable (container w) = true →
  nrf_url w = Some u1 →
  u1 ≠ EmptyString →
  pebble.files (container w) !! config_file_path = None →
  let w1 := after (_on_ausf_pebble_ready event1 w) in
  let o2 := _on_ausf_pebble_ready event2 (set_nrf_url later w1) in
  let written :=
    schema_prefix +:+ u1 +:+ schema_middle +:+ hostname_of w
    +:+ schema_suffix in
  pebble.files (container w1) !! config_file_path = Some written
  ∧ count_calls is_push (trace o2) = 0
  ∧ pebble.files (container (after o2)) !! config_file_path = Some written.
Proof.
  intros Hrel Hconn Hurl Hu Hfile. cbv zeta.
  assert (H1 : pebble.files
                 (container (after (_on_ausf_pebble_ready event1 w)))
                 !! config_file_path
               = Some (schema_prefix +:+ u1 +:+ schema_middle
                       +:+ hostname_of w +:+ schema_suffix)).
  { rewrite (pass_after_checks event1 w r)
      by (try rewrite Hurl; auto using truthy_url).
    assert (Hp : pebble.files (container (prepared w)) !! config_file_path
                 = Some (rendered_config (Some u1) (hostname_of w))).
    { unfold prepared. rewrite config_present_false by assumption.
      rewrite files_after_push, Hurl. apply lookup_insert_eq. }
    rewrite rendered_config_text in Hp.
    destruct (result (_pod_ip w)); cbn [after];
      [rewrite files_after_apply|]; exact Hp. }
  set (w1 := after (_on_ausf_pebble_ready event1 w)) in *.
  split; [exact H1|].
  split.
  - apply no_push_when_present, config_present_is_Some.
    change (pebble.files (container (set_nrf_url later w1)))
      with (pebble.files (container w1)).
    rewrite H1. now eexists.
  - rewrite files_of_pass.
    + exact H1.
    + right. change (pebble.files (container (set_nrf_url later w1)))
        with (pebble.files (container w1)).
      rewrite H1. now eexists.
Qed.

Lemma config_kept_when_url_changes_witness :
  relations world_ready !! "nrf" = Some 0
  ∧ pebble.connectable (container world_ready) = true
  ∧ nrf_url world_ready = Some "http://1.1.1.1"
  ∧ "http://1.1.1.1" ≠ EmptyString
  ∧ pebble.files (container world_ready) !! config_file_path = None
  ∧ let w1 := after (_on_ausf_pebble_ready NRFAvailableEvent world_ready) in
    let o2 :=
      _on_ausf_pebble_ready NRFAvailableEvent
        (set_nrf_url (Some "http://2.2.2.2") w1) in
    let written :=
      schema_prefix +:+ "http://1.1.1.1" +:+ schema_middle
      +:+ hostname_of world_ready +:+ schema_suffix in
    pebble.files (container w1) !! config_file_path = Some written
    ∧ count_calls is_push (trace o2) = 0
    ∧ pebble.files (container (after o2)) !! config_file_path = Some written.
Proof.
  split; [vm_compute; reflexivity|]. split; [reflexivity|].
  split; [reflexivity|]. split; [discriminate|].
  split; [vm_compute; reflexivity|].
  apply (config_kept_when_url_changes NRFAvailableEvent NRFAvailableEvent
           world_ready 0 "http://1.1.1.1" (Some "http://2.2.2.2")).
  - vm_compute. reflexivity.
  - reflexivity.
  - reflexivity.
  - discriminate.
  - vm_compute. reflexivity.
Defined.

(** X3. A pass cut short by the host-metadata query does no harm: when the
    query works again, the next pass returns and leaves the world that a
    single pass would have left had the query worked at once, and over the
    two passes the file is pushed as often as in that single pass. *)
Theorem retry_after_abort
    (event1 event2 : Event) (w : World) (r : nat) (e : Exn)
    (sub : list string → option Py.bytes) (ip : ipaddress.IPv4Address) :
  relations w !! "nrf" = Some r →
  pebble.connectable (container w) = true →
  Py.truthy_option Py.truthy_string (nrf_url w) = true →
  result (_pod_ip w) = Raised e →
  result (_pod_ip (set_subprocess sub w)) = Returned ip →
  let o1 := _on_ausf_pebble_ready event1 w in
  let o2 := _on_ausf_pebble_ready event2 (set_subprocess sub (after o1)) in
  let o := _on_ausf_pebble_ready event2 (set_subprocess sub w) in
  result o1 = Raised e
  ∧ result o2 = Returned ()
  ∧ result o = Returned ()
  ∧ after o2 = after o
  ∧ count_calls is_push (trace o1) + count_calls is_push (trace o2)
    = count_calls is_push (trace o).
Proof.
  intros Hrel Hconn Hurl Hfail Hok. cbv zeta.
  pose proof (prepared_inputs w) as (_ & _ & Hr & Hu' & Hs & Hc').
  rewrite (pass_after_checks event1 w r) by assumption. rewrite Hfail.
  cbn [result after trace].
  set (w1 := set_subprocess sub (prepared w)).
  assert (Hpresent : config_present w1 = true).
  { apply config_present_is_Some. apply prepared_has_config. }
  rewrite (pass_after_checks event2 w1 r);
    [|unfold w1; cbn; congruence..].
  rewrite (result_pod_ip_same (set_subprocess sub w) w1), Hok by reflexivity.
  rewrite (pass_after_checks event2 (set_subprocess sub w) r) by assumption.
  rewrite Hok. cbn [result after trace].
  rewrite (prepared_when_present w1 Hpresent), prepared_set_subprocess.
  do 4 (split; [reflexivity|]).
  rewrite !count_calls_app.
  pose proof (count_before_layer w) as (Hp & _).
  pose proof (count_before_layer w1) as (Hp1 & _).
  pose proof (count_before_layer (set_subprocess sub w)) as (Hp2 & _).
  change (config_present (set_subprocess sub w)) with (config_present w) in Hp2.
  rewrite Hp, Hp1, Hp2, Hpresent. cbn. lia.
Qed.

Lemma retry_after_abort_witness :
  let w := world_ready_no_address in
  let sub := answers (Some "1.2.3.4") in
  relations w !! "nrf" = Some 0
  ∧ pebble.connectable (container w) = true
  ∧ Py.truthy_option Py.truthy_string (nrf_url w) = true
  ∧ result (_pod_ip w) = Raised CalledProcessError
  ∧ result (_pod_ip (set_subprocess sub w))
    = Returned (ipaddress.MkIPv4Address 16909060)
  ∧ let o1 := _on_ausf_pebble_ready PebbleReadyEvent w in
    let o2 :=
      _on_ausf_pebble_ready PebbleReadyEvent (set_subprocess sub (after o1)) in
    let o := _on_ausf_pebble_ready PebbleReadyEvent (set_subprocess sub w) in
    result o1 = Raised CalledProcessError
    ∧ result o2 = Returned ()
    ∧ result o = Returned ()
    ∧ after o2 = after o
    ∧ count_calls is_push (trace o1) + count_calls is_push (trace o2)
      = count_calls is_push (trace o).
Proof.
  cbv zeta.
  split; [vm_compute; reflexivity|]. split; [reflexivity|].
  split; [reflexivity|]. split; [vm_compute; reflexivity|].
  split; [vm_compute; reflexivity|].
  apply (retry_after_abort PebbleReadyEvent PebbleReadyEvent
           world_ready_no_address 0 CalledProcessError
           (answers (Some "1.2.3.4")) (ipaddress.MkIPv4Address 16909060)).
  - vm_compute. reflexivity.
  - reflexivity.
  - reflexivity.
  - vm_compute. reflexivity.
  - vm_compute. reflexivity.
Defined.

(** ** The address of the pod *)

Lemma byte_values_append (a b : string) :
  Py.byte_values (a +:+ b) = (Py.byte_values a ++ Py.byte_values b)%list.
Proof.
  unfold Py.byte_values. induction a as [|c a IH]; simpl; [reflexivity|].
  f_equal. exact IH.
Qed.

Lemma split_not_nil (sep : N) (s : Py.str) : Py.split sep s ≠ [].
Proof.
  destruct s as [|c r]; simpl; [discriminate|].
  destruct (c =? sep)%N; [discriminate|].
  destruct (Py.split sep r); discriminate.
Qed.

(** Joining what [split] gave returns the text. *)
Lemma join_split (sep : N) (s : Py.str) :
  join_codepoints sep (Py.split sep s) = s.
Proof.
  induction s as [|c r IH]; simpl; [reflexivity|].
  pose proof (split_not_nil sep r) as Hne.
  destruct (c =? sep)%N eqn:Hc.
  - apply N.eqb_eq in Hc. subst c.
    destruct (Py.split sep r) as [|h t]; [congruence|].
    change (join_codepoints sep ([] :: h :: t))
      with (sep :: join_codepoints sep (h :: t)).
    now rewrite IH.
  - destruct (Py.split sep r) as [|h t]; [congruence|].
    destruct t as [|h' t].
    + simpl in *. now rewrite IH.
    + change (join_codepoints sep ((c :: h) :: h' :: t))
        with (c :: (h ++ sep :: join_codepoints sep (h' :: t)))%list.
      change (join_codepoints sep (h :: h' :: t))
        with (h ++ sep :: join_codepoints sep (h' :: t))%list in IH.
      now rewrite IH.
Qed.

Lemma digit_cases (c : N) :
  ipaddress.is_ascii_digit c = true → In c digit_codes.
Proof.
  unfold ipaddress.is_ascii_digit, Py.in_range.
  intros [H1 H2]%andb_prop. apply N.leb_le in H1, H2.
  assert (c = 48 ∨ c = 49 ∨ c = 50 ∨ c = 51 ∨ c = 52 ∨ c = 53 ∨ c = 54
          ∨ c = 55 ∨ c = 56 ∨ c = 57)%N as H by lia.
  simpl. intuition.
Qed.

Lemma digit_strings_checked : forallb octet_round_trip digit_strings = true.
Proof. vm_compute. reflexivity. Qed.

Lemma in_digit_strings (o : Py.str) :
  o ≠ [] →
  (length o ≤ 3)%nat →
  forallb ipaddress.is_ascii_digit o = true →
  In o digit_strings.
Proof.
  intros Hne Hlen Hd. unfold digit_strings.
  destruct o as [|a [|b [|c [|d o]]]]; simpl in Hlen; try congruence;
    try lia; simpl in Hd;
    repeat match goal with
           | H : _ && _ = true |- _ => apply andb_prop in H as [? H]
           end;
    repeat match goal with
           | H : ipaddress.is_ascii_digit _ = true |- _ =>
             apply digit_cases in H
           end.
  - apply in_flat_map. exists a. split; [assumption|]. now left.
  - apply in_flat_map. exists a. split; [assumption|]. right.
    apply in_flat_map. exists b. split; [assumption|]. now left.
  - apply in_flat_map. exists a. split; [assumption|]. right.
    apply in_flat_map. exists b. split; [assumption|]. right.
    apply in_map_iff. exists c. split; [reflexivity|assumption].
Qed.

(** An octet that is accepted is at most 255 and prints as it was read. *)
Lemma parse_octet_sound (o : Py.str) (n : N) :
  ipaddress._parse_octet o = Some n →
  (n ≤ 255)%N ∧ Py.byte_values (pretty n) = o.
Proof.
  intros H.
  assert (Hin : In o digit_strings).
  { unfold ipaddress._parse_octet in H.
    destruct o as [|c0 o']; [discriminate|].
    destruct (forallb ipaddress.is_ascii_digit (c0 :: o')) eqn:Hd;
      [|discriminate].
    cbn [negb] in H.
    destruct (3 <? length (c0 :: o'))%nat eqn:Hl; [discriminate|].
    apply Nat.ltb_ge in Hl.
    apply in_digit_strings; [discriminate|assumption|assumption]. }
  pose proof digit_strings_checked as Hall.
  rewrite forallb_forall in Hall. specialize (Hall o Hin).
  unfold octet_round_trip in Hall. rewrite H in Hall.
  apply andb_prop in Hall as [Hle Heq].
  apply N.leb_le in Hle. apply bool_decide_eq_true in Heq. now split.
Qed.

Lemma shiftr_lor_byte (a b : N) :
  (b < 256)%N → N.shiftr (N.lor (N.shiftl a 8) b) 8 = a.
Proof.
  intros Hb.
  rewrite N.shiftr_lor, N.shiftr_shiftl_r by reflexivity.
  change (8 - 8)%N with 0%N. rewrite N.shiftr_0_r.
  rewrite (N.shiftr_div_pow2 b), N.div_small by exact Hb.
  apply N.lor_0_r.
Qed.

Lemma land_lor_byte (a b : N) :
  (b < 256)%N → N.land (N.lor (N.shiftl a 8) b) 255 = b.
Proof.
  intros Hb. change 255%N with (N.ones 8).
  rewrite N.land_lor_distr_l, !N.land_ones, N.shiftl_mul_pow2.
  rewrite N.Div0.mod_mul, N.mod_small by exact Hb.
  apply N.lor_0_l.
Qed.

(** Four octets packed into the integer come out again. *)
Lemma to_bytes_of_bytes (a b c d : N) :
  (a ≤ 255)%N → (b ≤ 255)%N → (c ≤ 255)%N → (d ≤ 255)%N →
  ipaddress.to_bytes4_big (ipaddress.int_from_bytes_big [a; b; c; d])
  = [a; b; c; d].
Proof.
  intros Ha Hb Hc Hd.
  unfold ipaddress.to_bytes4_big, ipaddress.int_from_bytes_big.
  cbn [fold_left]. change (N.shiftl 0 8) with 0%N. rewrite N.lor_0_l.
  set (x1 := a). set (x2 := N.lor (N.shiftl x1 8) b).
  set (x3 := N.lor (N.shiftl x2 8) c). set (x4 := N.lor (N.shiftl x3 8) d).
  assert (H3 : N.shiftr x4 8 = x3) by (apply shiftr_lor_byte; lia).
  assert (H2 : N.shiftr x3 8 = x2) by (apply shiftr_lor_byte; lia).
  assert (H1 : N.shiftr x2 8 = x1) by (apply shiftr_lor_byte; lia).
  change 24%N with (8 + (8 + 8))%N. change 16%N with (8 + 8)%N.
  rewrite <- !N.shiftr_shiftr, H3, H2, H1.
  f_equal; [|f_equal; [|f_equal; [|f_equal]]].
  - unfold x1. change 255%N with (N.ones 8).
    rewrite N.land_ones. apply N.mod_small. lia.
  - apply land_lor_byte. lia.
  - apply land_lor_byte. lia.
  - apply land_lor_byte. lia.
Qed.

(** The text of an address that was read is the text it was read from. *)
Lemma of_str_to_string (s : Py.str) (ip : ipaddress.IPv4Address) :
  ipaddress.of_str s = Some ip →
  Py.byte_values (ipaddress.to_string ip) = s.
Proof.
  unfold ipaddress.of_str, ipaddress._ip_int_from_string.
  case_bool_decide; [discriminate|].
  destruct s as [|c0 s']; [discriminate|].
  set (s := c0 :: s') in *.
  destruct (length (Py.split 46 s) =? 4)%nat eqn:Hlen; [|discriminate].
  cbn [negb]. apply Nat.eqb_eq in Hlen.
  destruct (mapM ipaddress._parse_octet (Py.split 46 s)) as [bs|] eqn:Hm;
    [|discriminate].
  intros [= <-]. apply mapM_Some in Hm.
  pose proof (join_split 46 s) as Hjoin.
  destruct (Py.split 46 s) as [|o1 [|o2 [|o3 [|o4 [|o5 os]]]]];
    try discriminate Hlen.
  inversion Hm as [|? n1 ? bs1 Ho1 Hm1]; subst.
  inversion Hm1 as [|? n2 ? bs2 Ho2 Hm2]; subst.
  inversion Hm2 as [|? n3 ? bs3 Ho3 Hm3]; subst.
  inversion Hm3 as [|? n4 ? bs4 Ho4 Hm4]; subst.
  inversion Hm4; subst.
  apply parse_octet_sound in Ho1 as [L1 E1], Ho2 as [L2 E2],
      Ho3 as [L3 E3], Ho4 as [L4 E4].
  unfold ipaddress.to_string. cbn [ipaddress._ip].
  rewrite to_bytes_of_bytes by assumption.
  cbn [fmap list_fmap Py.join String.concat].
  rewrite !byte_values_append, E1, E2, E3, E4.
  rewrite <- Hjoin. reflexivity.
Qed.

Lemma pod_ip_returned (w : World) (ip : ipaddress.IPv4Address) :
  result (_pod_ip w) = Returned ip →
  ∃ (out : Py.bytes) (text : Py.str),
    subprocess w [ "unit-get"; "private-address" ] = Some out
    ∧ Py.decode out = Some text
    ∧ ipaddress.of_str (Py.strip text) = Some ip.
Proof.
  cbv [ _pod_ip check_output query or_raise raise mbind mret M_bind M_ret
        result app ].
  destruct (subprocess w _) as [out|] eqn:Hout; [|discriminate].
  destruct (Py.decode out) as [text|] eqn:Hdec; [|discriminate].
  destruct (ipaddress.of_str _) as [ip'|] eqn:Hip; [|discriminate].
  intros [= <-]. now exists out, text.
Qed.

Lemma pod_ip_of_text (w : World) (out : Py.bytes) (text : Py.str)
    (ip : ipaddress.IPv4Address) :
  subprocess w [ "unit-get"; "private-address" ] = Some out →
  Py.decode out = Some text →
  ipaddress.of_str (Py.strip text) = Some ip →
  result (_pod_ip w) = Returned ip.
Proof.
  intros Hout Hdec Hip.
  cbv [ _pod_ip check_output query or_raise raise mbind mret M_bind M_ret
        result app ].
  now rewrite Hout, Hdec, Hip.
Qed.

Lemma environment_variables_outcome (w : World) :
  _environment_variables w =
    match result (_pod_ip w) with
    | Returned ip =>
      MkOutcome (Returned (expected_environment (ipaddress.to_string ip))) w
        [ CheckOutput unit_get_private_address ]
    | Raised e => MkOutcome (Raised e) w [ CheckOutput unit_get_private_address ]
    end.
Proof.
  cbv [ _environment_variables mbind mret M_bind M_ret ].
  rewrite (pod_ip_outcome w w) by reflexivity.
  destruct (result (_pod_ip w)); reflexivity.
Qed.



(** X13. The value of [POD_IP] is the text the query printed: when
    [_environment_variables] returns, the command [unit-get private-address]
    gave an output that decodes to a text, and [POD_IP] is, character for
    character, that text with the white space around it dropped; the same
    text reads back as the same address. *)
Theorem pod_ip_is_the_printed_address (w : World) (env : gmap string string) :
  result (_environment_variables w) = Returned env →
  ∃ (out : Py.bytes) (text : Py.str) (pod_ip : string),
    subprocess w [ "unit-get"; "private-address" ] = Some out
    ∧ Py.decode out = Some text
    ∧ env !! "POD_IP" = Some pod_ip
    ∧ Py.byte_values pod_ip = Py.strip text
    ∧ ipaddress.to_string <$> ipaddress.of_str (Py.byte_values pod_ip)
      = Some pod_ip.
Proof.
  rewrite environment_variables_outcome.
  destruct (result (_pod_ip w)) as [ip|e] eqn:Hip; [|discriminate].
  cbn [result]. intros [= <-].
  apply pod_ip_returned in Hip as (out & text & Hout & Hdec & Hparse).
  exists out, text, (ipaddress.to_string ip).
  pose proof (environment_values (ipaddress.to_string ip))
    as (_ & _ & _ & _ & Hpod & _).
  pose proof (of_str_to_string _ _ Hparse) as Hround.
  do 3 (split; [assumption|]).
  split; [assumption|].
  now rewrite Hround, Hparse.
Qed.

Lemma pod_ip_is_the_printed_address_witness :
  result (_environment_variables world_ready_other_address)
  = Returned (expected_environment "10.1.20.255")
  ∧ ∃ (out : Py.bytes) (text : Py.str) (pod_ip : string),
      subprocess world_ready_other_address [ "unit-get"; "private-address" ]
      = Some out
      ∧ Py.decode out = Some text
      ∧ expected_environment "10.1.20.255" !! "POD_IP" = Some pod_ip
      ∧ Py.byte_values pod_ip = Py.strip text
      ∧ ipaddress.to_string <$> ipaddress.of_str (Py.byte_values pod_ip)
        = Some pod_ip.
Proof.
  assert (H : result (_environment_variables world_ready_other_address)
              = Returned (expected_environment "10.1.20.255")).
  { rewrite environment_variables_outcome.
    assert (Hip : result (_pod_ip world_ready_other_address)
                  = Returned (ipaddress.MkIPv4Address 167843071))
      by (vm_compute; reflexivity).
    rewrite Hip. reflexivity. }
  split; [exact H|].
  exact (pod_ip_is_the_printed_address world_ready_other_address
           (expected_environment "10.1.20.255") H).
Defined.

(** *** Every address in decimal is accepted *)

Lemma octet_values_checked : forallb octet_accepted octet_values = true.
Proof. vm_compute. reflexivity. Qed.

Lemma octet_printed (n : N) :
  (n ≤ 255)%N →
  ipaddress._parse_octet (Py.byte_values (pretty n)) = Some n
  ∧ forallb ipaddress.is_ascii_digit (Py.byte_values (pretty n)) = true
  ∧ Py.byte_values (pretty n) ≠ [].
Proof.
  intros Hn.
  assert (Hin : In n octet_values).
  { unfold octet_values. apply in_map_iff. exists (N.to_nat n).
    split; [apply N2Nat.id|]. apply in_seq. lia. }
  pose proof octet_values_checked as Hall.
  rewrite forallb_forall in Hall. specialize (Hall n Hin).
  unfold octet_accepted in Hall.
  apply andb_prop in Hall as [[H1 H2]%andb_prop H3].
  apply bool_decide_eq_true in H1.
  repeat split; try assumption.
  destruct (Py.byte_values (pretty n)); [discriminate|discriminate].
Qed.

Lemma digit_not_space (c : N) :
  ipaddress.is_ascii_digit c = true → Py.isspace c = false.
Proof.
  intros H%digit_cases. simpl in H.
  repeat (destruct H as [<-|H]; [reflexivity|]). contradiction.
Qed.

Lemma digit_not_dot (c : N) :
  ipaddress.is_ascii_digit c = true → (c =? 46)%N = false.
Proof.
  intros H%digit_cases. simpl in H.
  repeat (destruct H as [<-|H]; [reflexivity|]). contradiction.
Qed.

Lemma lstrip_spaces (l s : Py.str) :
  forallb Py.isspace l = true → Py.lstrip (l ++ s)%list = Py.lstrip s.
Proof.
  induction l as [|c l IH]; [reflexivity|].
  simpl. intros [Hc Hl]%andb_prop. rewrite Hc. now apply IH.
Qed.

Lemma lstrip_digit (c : N) (s : Py.str) :
  ipaddress.is_ascii_digit c = true → Py.lstrip (c :: s) = c :: s.
Proof. intros H. simpl. now rewrite (digit_not_space c H). Qed.

(** A text that begins and ends with a digit, with white space around. *)
Lemma strip_between_digits (l r t : Py.str) (c c' : N) :
  forallb Py.isspace l = true →
  forallb Py.isspace r = true →
  ipaddress.is_ascii_digit c = true →
  ipaddress.is_ascii_digit c' = true →
  Py.strip (l ++ (c :: t ++ [c']) ++ r)%list = (c :: t ++ [c'])%list.
Proof.
  intros Hl Hr Hc Hc'. unfold Py.strip, Py.rstrip.
  rewrite lstrip_spaces by assumption.
  change ((c :: t ++ [c']) ++ r)%list with (c :: (t ++ [c']) ++ r)%list.
  rewrite lstrip_digit by assumption.
  change (c :: (t ++ [c']) ++ r)%list with ((c :: t ++ [c']) ++ r)%list.
  rewrite rev_app_distr.
  rewrite lstrip_spaces.
  - change (c :: t ++ [c'])%list with ((c :: t) ++ [c'])%list.
    rewrite rev_app_distr. cbn [rev app].
    rewrite lstrip_digit by assumption.
    change (c' :: rev t ++ [c])%list with (rev [c'] ++ rev (c :: t))%list.
    rewrite <- rev_app_distr. now rewrite rev_involutive.
  - rewrite forallb_forall in *. intros x Hx. apply Hr.
    now apply in_rev.
Qed.

Lemma split_digits (o : Py.str) :
  forallb ipaddress.is_ascii_digit o = true → Py.split 46 o = [o].
Proof.
  induction o as [|c o IH]; [reflexivity|].
  simpl. intros [Hc Ho]%andb_prop.
  rewrite (digit_not_dot c Hc), (IH Ho). reflexivity.
Qed.

Lemma split_digits_dot (o rest : Py.str) :
  forallb ipaddress.is_ascii_digit o = true →
  Py.split 46 (o ++ 46%N :: rest)%list = o :: Py.split 46 rest.
Proof.
  induction o as [|c o IH]; [reflexivity|].
  simpl. intros [Hc Ho]%andb_prop.
  rewrite (digit_not_dot c Hc), (IH Ho). reflexivity.
Qed.

Lemma no_slash_in_digits (o : Py.str) :
  forallb ipaddress.is_ascii_digit o = true → ¬ In 47%N o.
Proof.
  rewrite forallb_forall. intros H Hin. specialize (H _ Hin). discriminate.
Qed.

Lemma last_digit (o : Py.str) :
  o ≠ [] →
  forallb ipaddress.is_ascii_digit o = true →
  ∃ (o' : Py.str) (c' : N),
    o = (o' ++ [c'])%list ∧ ipaddress.is_ascii_digit c' = true.
Proof.
  intros Hne Hd.
  destruct (exists_last Hne) as (o' & c' & ->).
  exists o', c'. split; [reflexivity|].
  rewrite forallb_forall in Hd. apply Hd, in_or_app. right. now left.
Qed.

Lemma ip_int_from_text (s : Py.str) :
  s ≠ [] →
  ipaddress._ip_int_from_string s
  = if negb (length (Py.split 46 s) =? 4)%nat then None
    else ipaddress.int_from_bytes_big
           <$> mapM ipaddress._parse_octet (Py.split 46 s).
Proof. destruct s; [congruence|reflexivity]. Qed.

(** The address read from a dotted quad in decimal, white space around. *)
Lemma of_str_dotted_quad (a b c d : N) (l r : Py.str) :
  (a ≤ 255)%N → (b ≤ 255)%N → (c ≤ 255)%N → (d ≤ 255)%N →
  forallb Py.isspace l = true →
  forallb Py.isspace r = true →
  ipaddress.of_str
    (Py.strip (l ++ Py.byte_values (dotted_quad a b c d) ++ r)%list)
  = Some (ipaddress.MkIPv4Address (ipaddress.int_from_bytes_big [a; b; c; d])).
Proof.
  intros Ha Hb Hc Hd Hl Hr.
  destruct (octet_printed a Ha) as (Pa & Da & Na).
  destruct (octet_printed b Hb) as (Pb & Db & Nb).
  destruct (octet_printed c Hc) as (Pc & Dc & Nc).
  destruct (octet_printed d Hd) as (Pd & Dd & Nd).
  unfold dotted_quad. rewrite !byte_values_append.
  change (Py.byte_values ".") with [46%N].
  set (oa := Py.byte_values (pretty a)) in *.
  set (ob := Py.byte_values (pretty b)) in *.
  set (oc := Py.byte_values (pretty c)) in *.
  set (od := Py.byte_values (pretty d)) in *.
  destruct oa as [|c0 oa'] eqn:Ea; [congruence|].
  destruct (last_digit od Nd Dd) as (od' & c' & Ed & Hc').
  assert (Hc0 : ipaddress.is_ascii_digit c0 = true).
  { simpl in Da. now apply andb_prop in Da as [? _]. }
  set (t := (oa' ++ [46%N] ++ ob ++ [46%N] ++ oc ++ [46%N] ++ od')%list).
  assert (Ht : ((c0 :: oa') ++ [46%N] ++ ob ++ [46%N] ++ oc ++ [46%N] ++ od)%list
               = (c0 :: t ++ [c'])%list).
  { unfold t. rewrite Ed. cbn [app]. f_equal.
    repeat (rewrite <- app_assoc; cbn [app]). reflexivity. }
  rewrite Ht, strip_between_digits by assumption. rewrite <- Ht.
  unfold ipaddress.of_str.
  rewrite bool_decide_eq_false_2.
  2:{ rewrite list_elem_of_In. intros Hin.
      repeat (apply in_app_or in Hin as [Hin|Hin];
              [now (eapply no_slash_in_digits; [|exact Hin])
              |try (destruct Hin as [Hin|Hin]; [discriminate|])]).
      eapply no_slash_in_digits; [|exact Hin]. assumption. }
  set (txt := ((c0 :: oa') ++ [46%N] ++ ob ++ [46%N] ++ oc ++ [46%N] ++ od)%list).
  assert (Hsplit : Py.split 46 txt = [c0 :: oa'; ob; oc; od]).
  { unfold txt. cbn [app].
    change (c0 :: oa' ++ 46%N :: ob ++ 46%N :: oc ++ 46%N :: od)%list
      with ((c0 :: oa') ++ 46%N :: ob ++ 46%N :: oc ++ 46%N :: od)%list.
    now rewrite !split_digits_dot, split_digits by assumption. }
  rewrite ip_int_from_text by discriminate.
  rewrite Hsplit. cbn [length Nat.eqb negb mapM].
  rewrite Pa, Pb, Pc, Pd. reflexivity.
Qed.

Lemma to_string_dotted_quad (a b c d : N) :
  (a ≤ 255)%N → (b ≤ 255)%N → (c ≤ 255)%N → (d ≤ 255)%N →
  ipaddress.to_string
    (ipaddress.MkIPv4Address (ipaddress.int_from_bytes_big [a; b; c; d]))
  = dotted_quad a b c d.
Proof.
  intros Ha Hb Hc Hd. unfold ipaddress.to_string. cbn [ipaddress._ip].
  now rewrite to_bytes_of_bytes.
Qed.

(** X14. Every IPv4 address printed in decimal is accepted, white space
    around it or not: when the output of [unit-get private-address] decodes
    to the text [a.b.c.d] with each number at most 255, possibly between
    white space (the line break the command prints), [_pod_ip] returns the
    address with these four octets and [POD_IP] is the text [a.b.c.d]. *)
Theorem pod_ip_accepts_dotted_quad
    (w : World) (out : Py.bytes) (a b c d : N) (l r : Py.str) :
  (a ≤ 255)%N → (b ≤ 255)%N → (c ≤ 255)%N → (d ≤ 255)%N →
  forallb Py.isspace l = true →
  forallb Py.isspace r = true →
  subprocess w [ "unit-get"; "private-address" ] = Some out →
  Py.decode out = Some (l ++ Py.byte_values (dotted_quad a b c d) ++ r)%list →
  result (_pod_ip w)
  = Returned
      (ipaddress.MkIPv4Address (ipaddress.int_from_bytes_big [a; b; c; d]))
  ∧ ∃ env : gmap string string,
      result (_environment_variables w) = Returned env
      ∧ env !! "POD_IP" = Some (dotted_quad a b c d).
Proof.
  intros Ha Hb Hc Hd Hl Hr Hout Hdec.
  assert (Hip : result (_pod_ip w)
                = Returned
                    (ipaddress.MkIPv4Address
                       (ipaddress.int_from_bytes_big [a; b; c; d]))).
  { apply (pod_ip_of_text w out _ _ Hout Hdec).
    now apply of_str_dotted_quad. }
  split; [exact Hip|].
  rewrite environment_variables_outcome, Hip. cbn [result].
  eexists. split; [reflexivity|].
  rewrite to_string_dotted_quad by assumption.
  now pose proof (environment_values (dotted_quad a b c d))
    as (_ & _ & _ & _ & Hpod & _).
Qed.

Lemma pod_ip_accepts_dotted_quad_witness :
  (10 ≤ 255)%N ∧ (1 ≤ 255)%N ∧ (20 ≤ 255)%N ∧ (255 ≤ 255)%N
  ∧ forallb Py.isspace [] = true
  ∧ forallb Py.isspace [10%N] = true
  ∧ subprocess world_ready_other_address [ "unit-get"; "private-address" ]
    = Some ("10.1.20.255" +:+ LF)
  ∧ Py.decode ("10.1.20.255" +:+ LF)
    = Some ([] ++ Py.byte_values (dotted_quad 10 1 20 255) ++ [10%N])%list
  ∧ result (_pod_ip world_ready_other_address)
    = Returned
        (ipaddress.MkIPv4Address
           (ipaddress.int_from_bytes_big [10; 1; 20; 255]%N))
  ∧ ∃ env : gmap string string,
      result (_environment_variables world_ready_other_address) = Returned env
      ∧ env !! "POD_IP" = Some (dotted_quad 10 1 20 255).
Proof.
  do 4 (split; [lia|]).
  split; [reflexivity|]. split; [reflexivity|].
  split; [reflexivity|]. split; [vm_compute; reflexivity|].
  apply (pod_ip_accepts_dotted_quad world_ready_other_address
           ("10.1.20.255" +:+ LF) 10 1 20 255 [] [10%N]);
    try lia; try reflexivity.
Defined.

(** ** The status an earlier pass left *)

(** X15. What a pass does never depends on the status it finds: started
    with any other status, the pass makes the same calls, has the same
    result and leaves the container the same; if it returns it leaves the
    very same world, and if it raises the world differs by that status
    only. *)
Theorem pass_ignores_prior_status (event : Event) (w : World) (s : StatusBase) :
  let o := _on_ausf_pebble_ready event w in
  let o' := _on_ausf_pebble_ready event (set_unit_status s w) in
  result o' = result o
  ∧ trace o' = trace o
  ∧ container (after o') = container (after o)
  ∧ (result o = Returned () → after o' = after o)
  ∧ (∀ e : Exn, result o = Raised e → after o' = set_unit_status s (after o)).
Proof.
  cbv zeta.
  assert (Hprep : prepared (set_unit_status s w)
                  = set_unit_status s (prepared w)).
  { unfold prepared.
    change (config_present (set_unit_status s w)) with (config_present w).
    destruct (config_present w); reflexivity. }
  destruct (pass_case_of event w) as [Hrel|r Hrel Hc|r Hrel Hc Hu
                                      |r ip Hrel Hc Hu Hip|r e' Hrel Hc Hu Hip].
  - rewrite (pass_without_relation event (set_unit_status s w)) by exact Hrel.
    cbn [result trace after]. repeat split. intros e [=].
  - rewrite (pass_not_connected event (set_unit_status s w) r)
      by assumption.
    cbn [result trace after]. repeat split. intros e [=].
  - rewrite (pass_without_url event (set_unit_status s w) r) by assumption.
    cbn [result trace after]. repeat split. intros e [=].
  - rewrite (pass_after_checks event (set_unit_status s w) r) by assumption.
    rewrite (result_pod_ip_same w (set_unit_status s w)), Hip by reflexivity.
    rewrite Hprep. cbn [result trace after]. repeat split. intros e [=].
  - rewrite (pass_after_checks event (set_unit_status s w) r) by assumption.
    rewrite (result_pod_ip_same w (set_unit_status s w)), Hip by reflexivity.
    rewrite Hprep. cbn [result trace after].
    split; [reflexivity|]. split; [reflexivity|]. split; [reflexivity|].
    split; [intros [=]|]. intros e _. reflexivity.
Qed.
